(** * Verification of [unwrap.py]: SNAPHU configuration and raster codecs

    The development embeds the four functions of [unwrap.py]:
    [write_snaphu_config] (string templates filled by [str.format]),
    [gdal_to_binary] and [binary_to_gdal] (raster band <-> headerless
    binary file) and [main], which runs them around the external tool.
    Python exceptions are the [Raise] outcome; the files the
    functions read and write live in a finite map from paths to files that
    is threaded through every call, so that what a failing call leaves
    behind can be stated.

    The calls into the standard library, NumPy and GDAL are modelled by
    what they do to the values the program hands them: [str.format] as a
    character scanner, arrays as a type, a shape and a row-major list of
    element bit patterns, Python floats as binary64 numbers.  Where NumPy
    versions differ on a value the program can hand them, the behaviour is
    a parameter.  The model covers file contents only; it does not cover
    failures of the operating system (an unwritable path, a full disk). *)

From Stdlib Require Import ZArith Ascii String DecimalString.
From Stdlib Require Import Floats.SpecFloat.
From stdpp Require Import gmap strings list.

Local Open Scope Z_scope.

(** ** Exceptions, outcomes and the file-system monad *)

(** The Python exceptions that the modelled code and the library calls it
    makes can raise.  [Unsupported] is not a Python exception: it marks a
    library behaviour that is not modelled and that the program does not
    reach (a [str.format] conversion, format specification, attribute or
    index access, none of which occurs in the four templates; an array
    conversion or assignment in a type the program never uses; reading a
    raster file as raw bytes). *)
Inductive exn : Type :=
  | NotImplementedError
  | KeyError (key : string)
  | IndexError
  | ValueError
  | TypeError
  | OverflowError
  | AttributeError
  | FileNotFoundError
  | Unsupported.

Inductive outcome (A : Type) : Type :=
  | Ok (a : A)
  | Raise (e : exn).
Arguments Ok {A} a.
Arguments Raise {A} e.

#[global] Instance outcome_ret : MRet outcome := fun A a => Ok a.
#[global] Instance outcome_bind : MBind outcome := fun A B k o =>
  match o with
  | Ok a => k a
  | Raise e => Raise e
  end.
#[global] Instance outcome_fmap : FMap outcome := fun A B f o =>
  match o with
  | Ok a => Ok (f a)
  | Raise e => Raise e
  end.

(** ** Python values that reach [str.format] *)

Inductive pyval : Type :=
  | PyNone
  | PyStr (s : string)
  | PyInt (n : Z).

(** [str(v)]: [None] prints as its name, a string is itself, an integer is
    its decimal numeral, with a minus sign in front when negative. *)
Definition py_str (v : pyval) : string :=
  match v with
  | PyNone => "None"
  | PyStr s => s
  | PyInt n => NilZero.string_of_int (Z.to_int n)
  end.

(** ** The templates, character for character *)

Definition base_template : string :=
  "
    ######################
    # Base Configuration #
    ######################

    # Input file name
    INFILE  {infile}
    INFILEFORMAT    {informat}

    # Input file line length
    LINELENGTH  {width}
    NLOOKSRANGE {looks_range}
    NLOOKSAZ    {looks_az}

    # Output file
    OUTFILE {outfile}
    OUTFILEFORMAT   {outformat}

    # Correlation file
    CORRFILE    {corfile}
    CORRFILEFORMAT  FLOAT_DATA

    # Unwrapping Controls
    STATCOSTMODE    DEFO
    DEFOMAX_CYCLE   4.0
    INITMETHOD  MCF
    MAXNCOMPS   32

    ".

Definition tile_template : string :=
  "
    ################
    # Tile control #
    ################

    # Parameters in this section describe how the input files will be
    # tiled.  This is mainly used for tiling, in which different
    # patches of the interferogram are unwrapped separately.

    # Number of rows and columns of tiles into which the data files are
    # to be broken up.
    NTILEROW    {ntilerow}
    NTILECOL    {ntilecol}

    # Overlap, in pixels, between neighboring tiles.
    # Using the same overlap for rows and cols here, but they can be different in general
    ROWOVRLP    {overlap}
    COLOVRLP    {overlap}

    # Maximum number of child processes to start for parallel tile
    # unwrapping.
    NPROC   {nproc}

    ".

Definition mask_template : string :=
  "
    ###########
    # Masking #
    ###########

    # Input file of signed binary byte (signed char) values.  Values in
    # the file should be either 0 or 1, with 0 denoting interferogram
    # pixels that should be masked out and 1 denoting valid pixels.  The
    # array should have the same dimensions as the input wrapped phase
    # array.
    BYTEMASKFILE    {mask}

    ".

Definition unwrap_template : string :=
  "
    UNWRAPPED_IN    TRUE
    UNWRAPPEDINFILEFORMAT   FLOAT_DATA

    ".

(** ** [str.format] with keyword arguments *)

(** The scanner of [str.format], one character at a time.  [Text] is
    literal text, [Open] and [Close] remember a brace just read (a doubled
    brace is an escaped literal brace), [Field name] collects a replacement
    field's name. *)
Inductive fmt_state : Type :=
  | Text
  | Open
  | Close
  | Field (name : string).

Definition is_digit (c : ascii) : bool :=
  match c with
  | "0" | "1" | "2" | "3" | "4" | "5" | "6" | "7" | "8" | "9" => true
  | _ => false
  end%char.

Fixpoint all_digits (s : string) : bool :=
  match s with
  | EmptyString => true
  | String c s' => is_digit c && all_digits s'
  end.

(** A field with an empty or numeric name is positional; [format] is called
    with keyword arguments only, so every position is out of range. *)
Definition get_value (kwargs : gmap string pyval) (name : string) : outcome string :=
  if all_digits name then Raise IndexError
  else match kwargs !! name with
       | Some v => Ok (py_str v)
       | None => Raise (KeyError name)
       end.

Fixpoint snoc (s : string) (c : ascii) : string :=
  match s with
  | EmptyString => String c EmptyString
  | String d s' => String d (snoc s' c)
  end.

(** How the scanner reads a character: a brace, a character that starts a
    conversion, a format specification or an attribute or index access
    inside a field, or any other character. *)
Inductive fmt_char : Type :=
  | OpenBrace
  | CloseBrace
  | Special
  | Plain.

Definition fmt_class (c : ascii) : fmt_char :=
  match c with
  | "{" => OpenBrace
  | "}" => CloseBrace
  | "!" | ":" | "." | "[" => Special
  | _ => Plain
  end%char.

Fixpoint format_go (kwargs : gmap string pyval) (st : fmt_state) (s : string)
  : outcome string :=
  match s with
  | EmptyString =>
      match st with
      | Text => Ok EmptyString
      | _ => Raise ValueError
      end
  | String c s' =>
      let in_field (name : string) :=
        match fmt_class c with
        | CloseBrace => v ← get_value kwargs name;
                        String.app v <$> format_go kwargs Text s'
        | OpenBrace => Raise ValueError
        | Special => Raise Unsupported
        | Plain => format_go kwargs (Field (snoc name c)) s'
        end in
      match st with
      | Text =>
          match fmt_class c with
          | OpenBrace => format_go kwargs Open s'
          | CloseBrace => format_go kwargs Close s'
          | _ => String c <$> format_go kwargs Text s'
          end
      | Open =>
          match fmt_class c with
          | OpenBrace => String c <$> format_go kwargs Text s'
          | _ => in_field EmptyString
          end
      | Close =>
          match fmt_class c with
          | CloseBrace => String c <$> format_go kwargs Text s'
          | _ => Raise ValueError
          end
      | Field name => in_field name
      end
  end.

(** [template.format] called with the dictionary as keyword arguments. *)
Definition format (template : string) (kwargs : gmap string pyval) : outcome string :=
  format_go kwargs Text template.

(** ** Rasters, files and the file system *)

(** GDAL's pixel types ([gdal.GDT_*]). *)
Inductive GDALDataType : Type :=
  | GDT_Unknown | GDT_Byte | GDT_UInt16 | GDT_Int16 | GDT_UInt32 | GDT_Int32
  | GDT_Float32 | GDT_Float64 | GDT_CInt16 | GDT_CInt32 | GDT_CFloat32
  | GDT_CFloat64.

#[global] Instance GDALDataType_eq_dec : EqDecision GDALDataType.
Proof. solve_decision. Defined.

(** A single-band raster dataset as [unwrap.py] sees it.  A pixel is kept as
    the bit pattern of its element (8 bits for [GDT_Byte], 32 for
    [GDT_Float32], ...), in row-major order; a nodata value is a Python
    [float], that is a binary64 number. *)
Record Raster : Type := {
  RasterYSize : nat;
  RasterXSize : nat;
  DataType : GDALDataType;
  NoDataValue : option spec_float;
  GeoTransform : list spec_float;
  Projection : string;
  Band1 : list Z
}.

(** A file is a headerless run of bytes or a raster dataset. *)
Inductive file : Type :=
  | FlatFile (bytes : list Z)
  | RasterFile (r : Raster).

Abbreviation filesystem := (gmap string file).

(** Effectful code: an outcome together with the file system it leaves
    behind, also when it raises. *)
Definition io (A : Type) : Type := filesystem -> outcome A * filesystem.

#[global] Instance io_ret : MRet io := fun A a fs => (Ok a, fs).
#[global] Instance io_bind : MBind io := fun A B k m fs =>
  match m fs with
  | (Ok a, fs1) => k a fs1
  | (Raise e, fs1) => (Raise e, fs1)
  end.

Definition lift {A} (o : outcome A) : io A := fun fs => (o, fs).
Definition raise {A} (e : exn) : io A := lift (Raise e).

(** The bytes of a text: a [string] is already a sequence of 8-bit
    characters. *)
Definition encode_text (s : string) : list Z :=
  (fun c => Z.of_nat (nat_of_ascii c)) <$> list_ascii_of_string s.

(** [with open(path, "w") as f: f.write(text)].  A path that cannot be
    opened for writing is outside the model. *)
Definition write_text (path text : string) : io unit :=
  fun fs => (Ok tt, <[path := FlatFile (encode_text text)]> fs).

(** ** [write_snaphu_config] *)

(** Truth value of an optional tuple and of an optional string: [None], the
    empty tuple and the empty string are false. *)
Definition tuple_truthy (t : option (list Z)) : bool :=
  match t with
  | Some (_ :: _) => true
  | _ => false
  end.

Definition str_truthy (s : option string) : bool :=
  match s with
  | Some (String _ _) => true
  | _ => false
  end.

(** The default of the [tile_overlap] argument. *)
Definition default_tile_overlap : Z := 600.

(** The paths are strings, the looks and the overlap integers, the shapes
    tuples of integers; the optional arguments are passed explicitly, [None]
    for an absent tile grid shape or mask path.  The result is the pair the
    function returns; the configuration is the file left at [out_conf]. *)
Definition write_snaphu_config
    (in_ifg in_cor : string) (looks_az looks_range : Z) (shape : list Z)
    (out_conf out_file : string) (tile_shape : option (list Z))
    (tile_overlap : Z) (in_mask : option string) (unwrapped : bool)
  : io (string * string) :=
  let in_format := "FLOAT_DATA" in
  width ← lift (from_option Ok (Raise IndexError) (shape !! 1%nat));
  let options : gmap string pyval :=
    <["outformat" := PyStr "FLOAT_DATA"]> (
    <["outfile" := PyStr out_file]> (
    <["width" := PyInt width]> (
    <["looks_range" := PyInt looks_range]> (
    <["looks_az" := PyInt looks_az]> (
    <["corfile" := PyStr in_cor]> (
    <["informat" := PyStr in_format]> (
    <["infile" := PyStr in_ifg]> ∅))))))) in
  let template := base_template in
  '(template, options) ←
    (if tuple_truthy tile_shape then
       match tile_shape with
       | Some [ntilerow; ntilecol] =>
           let nproc := ntilerow * ntilecol in
           mret (template +:+ tile_template,
                 <["nproc" := PyInt nproc]> (
                 <["overlap" := PyInt tile_overlap]> (
                 <["ntilecol" := PyInt ntilecol]> (
                 <["ntilerow" := PyInt ntilerow]> options))))
       | _ => raise ValueError
       end
     else mret (template, options));
  '(template, options) ←
    (if str_truthy in_mask then
       mret (template +:+ mask_template,
             <["mask" := from_option PyStr PyNone in_mask]> options)
     else mret (template, options));
  let template := if unwrapped then template +:+ unwrap_template else template in
  template ← lift (format template options);
  write_text out_conf template;;
  mret (out_conf, out_file).

(** * Raster codecs *)

(** ** NumPy arrays *)

Inductive np_dtype : Type :=
  | np_uint8 | np_int8 | np_uint16 | np_int16 | np_uint32 | np_int32
  | np_float32 | np_float64 | np_complex64 | np_complex128.

#[global] Instance np_dtype_eq_dec : EqDecision np_dtype.
Proof. solve_decision. Defined.

(** Bytes per element. *)
Definition itemsize (t : np_dtype) : nat :=
  match t with
  | np_uint8 | np_int8 => 1
  | np_uint16 | np_int16 => 2
  | np_uint32 | np_int32 | np_float32 => 4
  | np_float64 | np_complex64 => 8
  | np_complex128 => 16
  end.

(** An array is its element type, its shape and its elements in row-major
    order.  An element is kept as its bit pattern, a number below
    [256 ^ itemsize]: NumPy's [int8] and GDAL's [Byte] hold the same byte and
    read it as -56 and as 200. *)
Record ndarray : Type := {
  dtype : np_dtype;
  shape : list nat;
  data : list Z
}.

(** [gdal_array.codes] and [gdal_array.flip_code]: the NumPy type of a GDAL
    type, and back.  [flip_code] sends [int8] to [GDT_Byte] (GDAL up to 3.6,
    which has no signed 8-bit type: the byte is stored as it is) and
    [complex64] to [GDT_CFloat32], and every other type to the GDAL type
    listed for it. *)
Definition GDALTypeCodeToNumericTypeCode (t : GDALDataType) : option np_dtype :=
  match t with
  | GDT_Unknown => None
  | GDT_Byte => Some np_uint8
  | GDT_UInt16 => Some np_uint16
  | GDT_Int16 => Some np_int16
  | GDT_UInt32 => Some np_uint32
  | GDT_Int32 => Some np_int32
  | GDT_Float32 => Some np_float32
  | GDT_Float64 => Some np_float64
  | GDT_CInt16 | GDT_CInt32 | GDT_CFloat32 => Some np_complex64
  | GDT_CFloat64 => Some np_complex128
  end.

Definition NumericTypeCodeToGDALTypeCode (t : np_dtype) : GDALDataType :=
  match t with
  | np_uint8 | np_int8 => GDT_Byte
  | np_uint16 => GDT_UInt16
  | np_int16 => GDT_Int16
  | np_uint32 => GDT_UInt32
  | np_int32 => GDT_Int32
  | np_float32 => GDT_Float32
  | np_float64 => GDT_Float64
  | np_complex64 => GDT_CFloat32
  | np_complex128 => GDT_CFloat64
  end.

(** ** Little-endian element encoding: [tofile] and [fromfile] *)

(** Both write and read elements in the machine's byte order, taken to be
    little-endian. *)

Fixpoint le_bytes (k : nat) (p : Z) : list Z :=
  match k with
  | O => []
  | S k' => p mod 256 :: le_bytes k' (p / 256)
  end.

Fixpoint le_value (bs : list Z) : Z :=
  match bs with
  | [] => 0
  | b :: bs' => b + 256 * le_value bs'
  end.

(** [n] items of [k] bytes each, read from the front of [bs]. *)
Fixpoint decode_items (k n : nat) (bs : list Z) : list Z :=
  match n with
  | O => []
  | S n' => le_value (take k bs) :: decode_items k n' (drop k bs)
  end.

Definition encode_items (k : nat) (l : list Z) : list Z :=
  concat (le_bytes k <$> l).

(** [arr.tofile(path)] *)
Definition tofile (arr : ndarray) (path : string) : io unit :=
  fun fs =>
    (Ok tt, <[path := FlatFile (encode_items (itemsize (dtype arr)) (data arr))]> fs).

(** [np.fromfile(path, dtype=t)]: a one-dimensional array of as many whole
    items as the file holds.  Reading the raw bytes of a raster file is
    outside the model. *)
Definition fromfile (path : string) (t : np_dtype) : io ndarray :=
  fun fs =>
    match fs !! path with
    | None => (Raise FileNotFoundError, fs)
    | Some (RasterFile _) => (Raise Unsupported, fs)
    | Some (FlatFile bs) =>
        let n := Nat.div (length bs) (itemsize t) in
        (Ok {| dtype := t; shape := [n];
               data := decode_items (itemsize t) n bs |}, fs)
    end.

(** [arr.reshape(shape)] *)
Definition reshape (arr : ndarray) (new_shape : list nat) : outcome ndarray :=
  if decide (foldr Nat.mul 1%nat new_shape = length (data arr))
  then Ok {| dtype := dtype arr; shape := new_shape; data := data arr |}
  else Raise ValueError.

(** ** Element conversions *)

(** [x == 0] on the bit pattern of an element: an integer is zero when all
    its bits are, a float when all bits but the sign are, a complex number
    when both parts are. *)
Definition float_is_zero (bits : Z) (p : Z) : bool :=
  bool_decide (p mod 2 ^ (bits - 1) = 0).

Definition is_zero (t : np_dtype) (p : Z) : bool :=
  match t with
  | np_float32 => float_is_zero 32 (p mod 2 ^ 32)
  | np_float64 => float_is_zero 64 (p mod 2 ^ 64)
  | np_complex64 =>
      float_is_zero 32 (p mod 2 ^ 32) && float_is_zero 32 ((p / 2 ^ 32) mod 2 ^ 32)
  | np_complex128 =>
      float_is_zero 64 (p mod 2 ^ 64) && float_is_zero 64 ((p / 2 ^ 64) mod 2 ^ 64)
  | _ => bool_decide (p mod 256 ^ Z.of_nat (itemsize t) = 0)
  end.

(** The binary32 bit pattern of a Python float: round to nearest even into
    binary32, then lay out sign, biased exponent and fraction.  A NaN is the
    quiet NaN. *)
Definition float32_nan : Z := 0x7FC00000.

Definition float32_bits (f : spec_float) : Z :=
  let sign (s : bool) : Z := if s then 0x80000000 else 0 in
  let layout (r : spec_float) : Z :=
    match r with
    | S754_zero s => sign s
    | S754_infinity s => sign s + 0x7F800000
    | S754_nan => float32_nan
    | S754_finite s m e => sign s + (e + 149) * 2 ^ 23 + Z.pos m
    end in
  match f with
  | S754_finite s m e => layout (binary_round 24 128 s m e)
  | _ => layout f
  end.

(** [int(f)] for a Python float, then the C [long] that NumPy asks for. *)
Definition float_to_long (f : spec_float) : outcome Z :=
  match f with
  | S754_zero _ => Ok 0
  | S754_infinity _ => Raise OverflowError
  | S754_nan => Raise ValueError
  | S754_finite s m e =>
      let n := if 0 <=? e then Z.pos m * 2 ^ e else Z.pos m / 2 ^ (- e) in
      let n := if s then - n else n in
      if (- 2 ^ 63 <=? n) && (n <? 2 ^ 63) then Ok n else Raise OverflowError
  end.

(** [unwrap.py] names no NumPy version, and NumPy has treated a number
    outside the range of an integer array's elements in two ways: up to
    1.26 the array keeps the low bits (from 1.24 on with a
    [DeprecationWarning] for a Python integer), and NumPy 2 raises
    [OverflowError] for a Python integer out of bounds.  Both behaviours
    are modelled, and what is proved of [binary_to_gdal] is proved for
    either. *)
Inductive out_of_bound : Type :=
  | KeepLowBits
  | RaiseOverflow.

(** Whether an [int8] element takes the integer [n]. *)
Definition int8_keeps (overflow : out_of_bound) (n : Z) : bool :=
  match overflow with
  | KeepLowBits => true
  | RaiseOverflow => (-128 <=? n) && (n <=? 127)
  end.

(** The element that [arr[...] = value] stores in an array of type [t], for
    [value] a Python float or [None].  A float array takes [None] as NaN; an
    [int8] array converts through [int()], which rejects [None], and keeps
    the low byte of an integer it takes.  Only [float32] and [int8] arrays
    are assigned to. *)
Definition setitem_value (overflow : out_of_bound) (t : np_dtype)
    (value : option spec_float) : outcome Z :=
  match t with
  | np_float32 => Ok (from_option float32_bits float32_nan value)
  | np_int8 =>
      match value with
      | None => Raise TypeError
      | Some f =>
          n ← float_to_long f;
          if int8_keeps overflow n then Ok (n mod 256) else Raise OverflowError
      end
  | _ => Raise Unsupported
  end.

(** [arr[mask == 0] = value]: the Boolean index must have the shape of the
    array; every element where the mask is zero becomes the value. *)
Definition assign_where_zero (overflow : out_of_bound) (arr mask : ndarray)
    (value : option spec_float) : outcome ndarray :=
  if decide (shape mask = shape arr) then
    v ← setitem_value overflow (dtype arr) value;
    Ok {| dtype := dtype arr; shape := shape arr;
          data := zip_with (fun m x => if is_zero (dtype mask) m then v else x)
                    (data mask) (data arr) |}
  else Raise IndexError.

(** ** GDAL datasets *)

(** [gdal.Open(path)] gives [None] for a path that is not a raster; the
    method call that follows on the next line then raises [AttributeError].
    The dataset read is a snapshot: later writes to the file system do not
    change it. *)
Definition gdal_Open (path : string) : io Raster :=
  fun fs =>
    match fs !! path with
    | Some (RasterFile r) => (Ok r, fs)
    | _ => (Raise AttributeError, fs)
    end.

(** A dataset opened for writing is its path; its setters rewrite the file. *)
Definition modify_dataset (path : string) (f : Raster -> Raster) : io unit :=
  fun fs =>
    match fs !! path with
    | Some (RasterFile r) => (Ok tt, <[path := RasterFile (f r)]> fs)
    | _ => (Raise AttributeError, fs)
    end.

(** The geotransform of a new dataset: (0, 1, 0, 0, 0, 1). *)
Definition default_geotransform : list spec_float :=
  [ S754_zero false; S754_finite false 1 0; S754_zero false;
    S754_zero false; S754_zero false; S754_finite false 1 0 ].

(** [driver.Create(path, xsize, ysize, 1, dtype)] for the GTiff driver: a new
    file with one zero-filled band, no nodata value, the default
    geotransform and no projection.  A raster without pixels cannot be
    created: [Create] gives [None] and the first setter, on the next line,
    raises [AttributeError]. *)
Definition Create (path : string) (xsize ysize : nat) (t : GDALDataType)
  : io string :=
  fun fs =>
    if bool_decide (xsize = 0%nat \/ ysize = 0%nat)
    then (Raise AttributeError, fs)
    else (Ok path,
          <[path := RasterFile
              {| RasterYSize := ysize; RasterXSize := xsize; DataType := t;
                 NoDataValue := None; GeoTransform := default_geotransform;
                 Projection := "";
                 Band1 := replicate (ysize * xsize) 0 |}]> fs).

Definition SetGeoTransform (out_ds : string) (gt : list spec_float) : io unit :=
  modify_dataset out_ds (fun r =>
    {| RasterYSize := RasterYSize r; RasterXSize := RasterXSize r;
       DataType := DataType r; NoDataValue := NoDataValue r;
       GeoTransform := gt; Projection := Projection r; Band1 := Band1 r |}).

Definition SetProjection (out_ds : string) (wkt : string) : io unit :=
  modify_dataset out_ds (fun r =>
    {| RasterYSize := RasterYSize r; RasterXSize := RasterXSize r;
       DataType := DataType r; NoDataValue := NoDataValue r;
       GeoTransform := GeoTransform r; Projection := wkt; Band1 := Band1 r |}).

(** [band.SetNoDataValue(v)] takes a C [double]: [None] is a [TypeError]. *)
Definition SetNoDataValue (out_ds : string) (v : option spec_float) : io unit :=
  match v with
  | None => raise TypeError
  | Some _ =>
      modify_dataset out_ds (fun r =>
        {| RasterYSize := RasterYSize r; RasterXSize := RasterXSize r;
           DataType := DataType r; NoDataValue := v;
           GeoTransform := GeoTransform r; Projection := Projection r;
           Band1 := Band1 r |})
  end.

Section codecs.
(** What the NumPy in use does with an integer out of bounds. *)
Variable overflow : out_of_bound.
(** Two library functions stay parameters: GDAL's conversion of a pixel
    from one type to another (used when a band is read or written in a
    type that is not its own), and the phase angle of a [complex64]
    element as a [float32] element ([np.angle], that is [arctan2] of the
    imaginary and the real part). *)
Variable GDALCopyWords : GDALDataType -> GDALDataType -> Z -> Z.
Variable np_angle : Z -> Z.

(** [band.ReadAsArray(buf_type=...)], after [gdal_array.BandReadAsArray]:
    the buffer type defaults to the band's own; a type NumPy has no code
    for is read as [float32]; the array has the dataset's shape. *)
Definition ReadAsArray (ds : Raster) (buf_type : option GDALDataType) : ndarray :=
  let buf_type := default (DataType ds) buf_type in
  let typecode := default np_float32 (GDALTypeCodeToNumericTypeCode buf_type) in
  let buf_type := NumericTypeCodeToGDALTypeCode typecode in
  {| dtype := typecode;
     shape := [RasterYSize ds; RasterXSize ds];
     data := if decide (DataType ds = buf_type) then Band1 ds
             else GDALCopyWords (DataType ds) buf_type <$> Band1 ds |}.

(** [band.WriteArray(arr)], after [gdal_array.BandWriteArray]: the array
    must fit the band; its elements are stored as they are when the
    array's GDAL type is the band's, and converted otherwise. *)
Definition WriteArray (out_ds : string) (arr : ndarray) : io unit :=
  fun fs =>
    match fs !! out_ds with
    | Some (RasterFile r) =>
        if decide (shape arr = [RasterYSize r; RasterXSize r]) then
          let src := NumericTypeCodeToGDALTypeCode (dtype arr) in
          let pixels := if decide (src = DataType r) then data arr
                        else GDALCopyWords src (DataType r) <$> data arr in
          (Ok tt,
           <[out_ds := RasterFile
               {| RasterYSize := RasterYSize r; RasterXSize := RasterXSize r;
                  DataType := DataType r; NoDataValue := NoDataValue r;
                  GeoTransform := GeoTransform r;
                  Projection := Projection r; Band1 := pixels |}]> fs)
        else (Raise ValueError, fs)
    | _ => (Raise AttributeError, fs)
    end.

(** [np.angle(arr)] on a [complex64] array. *)
Definition angle (arr : ndarray) : ndarray :=
  {| dtype := np_float32; shape := shape arr; data := np_angle <$> data arr |}.

(** [arr.astype(t)].  The program converts [uint8] to [int8], which keeps
    the byte, or to the type the array already has. *)
Definition astype (arr : ndarray) (t : np_dtype) : outcome ndarray :=
  if decide (dtype arr = t) then Ok arr
  else match dtype arr, t with
       | np_uint8, np_int8 =>
           Ok {| dtype := t; shape := shape arr;
                 data := (fun p => p mod 256) <$> data arr |}
       | _, _ => Raise Unsupported
       end.

(** ** [gdal_to_binary] *)

Definition gdal_to_binary (inpath outpath : string) (dtype : GDALDataType)
  : io unit :=
  py_dtype ←
    match dtype with
    | GDT_Float32 => mret np_float32
    | GDT_Byte => mret np_int8
    | GDT_CFloat32 => mret np_float32
    | _ => raise NotImplementedError
    end;
  ds ← gdal_Open inpath;
  let arr := ReadAsArray ds (Some dtype) in
  let arr := if decide (dtype = GDT_CFloat32) then angle arr else arr in
  arr ← lift (astype arr py_dtype);
  tofile arr outpath.

(** ** [binary_to_gdal] *)

Definition binary_to_gdal (inpath templatepath maskpath outpath : string)
  : io unit :=
  ds ← gdal_Open templatepath;
  let nodata_value := NoDataValue ds in
  let dtype := DataType ds in
  let shape := [RasterYSize ds; RasterXSize ds] in
  py_dtype ←
    match dtype with
    | GDT_Float32 => mret np_float32
    | GDT_Byte => mret np_int8
    | _ => raise NotImplementedError
    end;
  mask_ds ← gdal_Open maskpath;
  let mask := ReadAsArray mask_ds None in
  arr ← fromfile inpath py_dtype;
  arr ← lift (reshape arr shape);
  arr ← lift (assign_where_zero overflow arr mask nodata_value);
  out_ds ← Create outpath (RasterXSize ds) (RasterYSize ds) dtype;
  SetGeoTransform out_ds (GeoTransform ds);;
  SetProjection out_ds (Projection ds);;
  WriteArray out_ds arr;;
  SetNoDataValue out_ds nodata_value.
End codecs.

(** * Specification vocabulary *)

(** ** The rendered sections *)

(** The text of each section once its fields are filled: the template with
    every replacement field replaced by the value's string. *)

Definition base_section (infile informat width looks_range looks_az outfile outformat corfile : string) : string :=
  "
    ######################
    # Base Configuration #
    ######################

    # Input file name
    INFILE  " +:+ infile +:+ "
    INFILEFORMAT    " +:+ informat +:+ "

    # Input file line length
    LINELENGTH  " +:+ width +:+ "
    NLOOKSRANGE " +:+ looks_range +:+ "
    NLOOKSAZ    " +:+ looks_az +:+ "

    # Output file
    OUTFILE " +:+ outfile +:+ "
    OUTFILEFORMAT   " +:+ outformat +:+ "

    # Correlation file
    CORRFILE    " +:+ corfile +:+ "
    CORRFILEFORMAT  FLOAT_DATA

    # Unwrapping Controls
    STATCOSTMODE    DEFO
    DEFOMAX_CYCLE   4.0
    INITMETHOD  MCF
    MAXNCOMPS   32

    ".

Definition tile_section (ntilerow ntilecol overlap nproc : string) : string :=
  "
    ################
    # Tile control #
    ################

    # Parameters in this section describe how the input files will be
    # tiled.  This is mainly used for tiling, in which different
    # patches of the interferogram are unwrapped separately.

    # Number of rows and columns of tiles into which the data files are
    # to be broken up.
    NTILEROW    " +:+ ntilerow +:+ "
    NTILECOL    " +:+ ntilecol +:+ "

    # Overlap, in pixels, between neighboring tiles.
    # Using the same overlap for rows and cols here, but they can be different in general
    ROWOVRLP    " +:+ overlap +:+ "
    COLOVRLP    " +:+ overlap +:+ "

    # Maximum number of child processes to start for parallel tile
    # unwrapping.
    NPROC   " +:+ nproc +:+ "

    ".

Definition mask_section (mask : string) : string :=
  "
    ###########
    # Masking #
    ###########

    # Input file of signed binary byte (signed char) values.  Values in
    # the file should be either 0 or 1, with 0 denoting interferogram
    # pixels that should be masked out and 1 denoting valid pixels.  The
    # array should have the same dimensions as the input wrapped phase
    # array.
    BYTEMASKFILE    " +:+ mask +:+ "

    ".

Definition unwrap_section : string :=
  "
    UNWRAPPED_IN    TRUE
    UNWRAPPEDINFILEFORMAT   FLOAT_DATA

    ".

(** ** The text that [write_snaphu_config] writes *)

Definition str (n : Z) : string := py_str (PyInt n).

Definition tile_part (tile_shape : option (list Z)) (tile_overlap : Z) : string :=
  match tile_shape with
  | Some [ntilerow; ntilecol] =>
      tile_section (str ntilerow) (str ntilecol) (str tile_overlap)
        (str (ntilerow * ntilecol))
  | _ => ""
  end.

Definition mask_part (in_mask : option string) : string :=
  match in_mask with
  | Some (String _ _ as mask) => mask_section mask
  | _ => ""
  end.

Definition unwrap_part (unwrapped : bool) : string :=
  if unwrapped then unwrap_section else "".

Definition config_text (in_ifg in_cor : string) (looks_az looks_range width : Z)
    (out_file : string) (tile_shape : option (list Z)) (tile_overlap : Z)
    (in_mask : option string) (unwrapped : bool) : string :=
  base_section in_ifg "FLOAT_DATA" (str width) (str looks_range) (str looks_az)
    out_file "FLOAT_DATA" in_cor
  +:+ tile_part tile_shape tile_overlap
  +:+ mask_part in_mask
  +:+ unwrap_part unwrapped.

(** A tile grid shape that is given is a pair. *)
Definition tile_shape_ok (tile_shape : option (list Z)) : Prop :=
  match tile_shape with
  | Some (_ :: rest) => length rest = 1%nat
  | _ => True
  end.

(** ** Reading a configuration back: its directives *)

(** SNAPHU reads a configuration line by line: a line whose first non-blank
    character is [#] is a comment, any other non-blank line is a keyword
    followed by its value.  [directives] lists the (keyword, value) pairs of
    a text in order; the value is what follows the keyword and the blanks
    after it, up to the end of the line. *)
Inductive scan_state : Type :=
  | Indent
  | Comment
  | Key (k : string)
  | Val (k v : string).

Inductive line_char : Type :=
  | Newline
  | Blank
  | Hash
  | Other.

Definition line_class (c : ascii) : line_char :=
  match c with
  | "010" => Newline
  | " " | "009" => Blank
  | "#" => Hash
  | _ => Other
  end%char.

Definition flush (st : scan_state) : list (string * string) :=
  match st with
  | Key k => [(k, "")]
  | Val k v => [(k, v)]
  | _ => []
  end.

Definition step (st : scan_state) (c : ascii)
  : list (string * string) * scan_state :=
  match line_class c, st with
  | Newline, _ => (flush st, Indent)
  | Blank, Indent => ([], Indent)
  | Hash, Indent => ([], Comment)
  | _, Indent => ([], Key (String c ""))
  | _, Comment => ([], Comment)
  | Blank, Key k => ([], Val k "")
  | _, Key k => ([], Key (snoc k c))
  | Blank, Val k "" => ([], Val k "")
  | _, Val k v => ([], Val k (snoc v c))
  end.

Fixpoint run (st : scan_state) (s : string)
  : list (string * string) * scan_state :=
  match s with
  | EmptyString => ([], st)
  | String c s' =>
      let '(ds, st1) := step st c in
      let '(ds', st2) := run st1 s' in
      (ds ++ ds', st2)
  end.

Definition directives (s : string) : list (string * string) :=
  let '(ds, st) := run Indent s in ds ++ flush st.

(** The values bound to a keyword, in order of appearance. *)
Definition values_of (key : string) (ds : list (string * string)) : list string :=
  snd <$> filter (fun d => d.1 = key) ds.

(** A value that stays on its line: it has no newline and does not start
    with a blank. *)
Fixpoint one_line (s : string) : bool :=
  match s with
  | EmptyString => true
  | String c s' =>
      match line_class c with
      | Newline => false
      | _ => one_line s'
      end
  end.

Definition starts_blank (s : string) : bool :=
  match s with
  | EmptyString => false
  | String c _ =>
      match line_class c with
      | Blank => true
      | _ => false
      end
  end.

Definition plain (s : string) : bool := one_line s && negb (starts_blank s).

Definition base_directives (in_ifg in_cor : string)
    (looks_az looks_range width : Z) (out_file : string)
  : list (string * string) :=
  [ ("INFILE", in_ifg); ("INFILEFORMAT", "FLOAT_DATA");
    ("LINELENGTH", str width); ("NLOOKSRANGE", str looks_range);
    ("NLOOKSAZ", str looks_az); ("OUTFILE", out_file);
    ("OUTFILEFORMAT", "FLOAT_DATA"); ("CORRFILE", in_cor);
    ("CORRFILEFORMAT", "FLOAT_DATA"); ("STATCOSTMODE", "DEFO");
    ("DEFOMAX_CYCLE", "4.0"); ("INITMETHOD", "MCF"); ("MAXNCOMPS", "32") ].

Definition tile_directives (tile_shape : option (list Z)) (tile_overlap : Z)
  : list (string * string) :=
  match tile_shape with
  | Some [ntilerow; ntilecol] =>
      [ ("NTILEROW", str ntilerow); ("NTILECOL", str ntilecol);
        ("ROWOVRLP", str tile_overlap); ("COLOVRLP", str tile_overlap);
        ("NPROC", str (ntilerow * ntilecol)) ]
  | _ => []
  end.

Definition mask_directives (in_mask : option string) : list (string * string) :=
  match in_mask with
  | Some (String _ _ as mask) => [("BYTEMASKFILE", mask)]
  | _ => []
  end.

Definition unwrap_directives (unwrapped : bool) : list (string * string) :=
  if unwrapped
  then [("UNWRAPPED_IN", "TRUE"); ("UNWRAPPEDINFILEFORMAT", "FLOAT_DATA")]
  else [].

(** ** Codec results *)

(** The NumPy type [binary_to_gdal] reads the binary file in, for the two
    template pixel types it accepts. *)
Definition template_dtype (t : GDALDataType) : option np_dtype :=
  match t with
  | GDT_Float32 => Some np_float32
  | GDT_Byte => Some np_int8
  | _ => None
  end.

(** The raster [binary_to_gdal] leaves at the output path: the template's
    size, type, geotransform, projection and nodata value around the given
    pixels. *)
Definition output_raster (ds : Raster) (nodata : option spec_float)
    (pixels : list Z) : Raster :=
  {| RasterYSize := RasterYSize ds; RasterXSize := RasterXSize ds;
     DataType := DataType ds; NoDataValue := nodata;
     GeoTransform := GeoTransform ds; Projection := Projection ds;
     Band1 := pixels |}.

(** The masked array: the nodata element where the mask is zero, the
    decoded element elsewhere. *)
Definition masked (mask_dtype : np_dtype) (v : Z) (mask decoded : list Z) : list Z :=
  zip_with (fun m x => if is_zero mask_dtype m then v else x) mask decoded.

(** ** Example files *)

(** The rasters of the examples are 1 x 2: a float raster holding 1.0 and
    2.0 and a byte raster, each with a given nodata value or none (-9999,
    255 and 100 are used).  The example file system holds a template
    raster, a byte mask without a nodata value and a binary file. *)
Definition float_raster (nodata : option spec_float) : Raster :=
  {| RasterYSize := 1; RasterXSize := 2; DataType := GDT_Float32;
     NoDataValue := nodata; GeoTransform := default_geotransform;
     Projection := "EPSG:4326"; Band1 := [0x3F800000; 0x40000000] |}.

Definition byte_raster (pixels : list Z) (nodata : option spec_float) : Raster :=
  {| RasterYSize := 1; RasterXSize := 2; DataType := GDT_Byte;
     NoDataValue := nodata; GeoTransform := default_geotransform;
     Projection := "EPSG:4326"; Band1 := pixels |}.

Definition minus_9999 : spec_float := S754_finite true 9999 0.
Definition plus_255 : spec_float := S754_finite false 255 0.
Definition plus_100 : spec_float := S754_finite false 100 0.

Definition example_fs (template : Raster) (mask : list Z) (bytes : list Z)
  : filesystem :=
  <["in.bin" := FlatFile bytes]> (
  <["mask.tif" := RasterFile (byte_raster mask None)]> (
  <["template.tif" := RasterFile template]> ∅)).

Definition no_copy : GDALDataType -> GDALDataType -> Z -> Z := fun _ _ p => p.
Definition no_angle : Z -> Z := fun p => p.

Definition float_bytes : list Z := [0; 0; 128; 63; 0; 0; 0; 64].

(** * The driver *)

(** ** [main] *)

Section driver.
Variable overflow : out_of_bound.
Variable GDALCopyWords : GDALDataType -> GDALDataType -> Z -> Z.
Variable np_angle : Z -> Z.
(** The shell that [subprocess.call(cmd, shell=True)] hands the command to:
    the exit status of the command and the file system it leaves. *)
Variable shell : string -> filesystem -> Z * filesystem.

(** [subprocess.call(cmd, shell=True)] returns the exit status. *)
Definition subprocess_call (cmd : string) : io Z :=
  fun fs => let '(status, fs1) := shell cmd fs in (Ok status, fs1).

(** [print] writes to the standard output and leaves the files alone. *)
Definition print (line : string) : io unit := mret tt.

(** [for x in l: body(x)] *)
Fixpoint for_each {A : Type} (body : A -> io unit) (l : list A) : io unit :=
  match l with
  | [] => mret tt
  | x :: l' => body x;; for_each body l'
  end.

Definition main : io unit :=
  let files :=
    [ ("bursts_unwrapped", GDT_Float32);
      ("bursts_unwrapped_corrected", GDT_Float32);
      ("bursts_wrapped", GDT_Float32);
      ("bursts_correlation", GDT_Float32);
      ("bursts_mask", GDT_Byte) ] in
  for_each (fun '(name, dtype) =>
              gdal_to_binary GDALCopyWords np_angle (name +:+ ".tif")
                (name +:+ ".bin") dtype) files;;
  ds ← gdal_Open "bursts_wrapped.tif";
  let n_lines := Z.of_nat (RasterYSize ds) in
  let n_pixels := Z.of_nat (RasterXSize ds) in
  write_snaphu_config "bursts_unwrapped.bin" "bursts_correlation.bin" 4 20
    [n_lines; n_pixels] "snaphu.conf" "bursts_reunwrapped.bin" None
    default_tile_overlap (Some "bursts_mask.bin") true;;
  print ("Outputting looked unwrapped phase to" +:+ " "
         +:+ "bursts_reunwrapped.bin");;
  let cmd := "snaphu -f snaphu.conf |& tee -i snaphu.log" in
  print cmd;;
  subprocess_call cmd;;
  binary_to_gdal overflow GDALCopyWords "bursts_reunwrapped.bin"
    "bursts_wrapped.tif" "bursts_mask.tif" "bursts_reunwrapped.tif".
End driver.

(** ** Vocabulary for the further properties *)

(** A computation that changes no file other than the one at [path]. *)
Definition only_touches {A : Type} (path : string) (m : io A) : Prop :=
  forall (fs : filesystem) (p : string),
    p <> path -> (m fs).2 !! p = fs !! p.

(** The path holds a raster. *)
Definition is_raster (fs : filesystem) (path : string) : Prop :=
  exists r, fs !! path = Some (RasterFile r).

(** The NumPy type [gdal_to_binary] writes for the three pixel types it
    accepts. *)
Definition requested_dtype (t : GDALDataType) : option np_dtype :=
  match t with
  | GDT_Float32 | GDT_CFloat32 => Some np_float32
  | GDT_Byte => Some np_int8
  | _ => None
  end.

(** The command line [main] runs. *)
Definition snaphu_command : string := "snaphu -f snaphu.conf |& tee -i snaphu.log".

(** The directives of the configuration [main] writes for a raster that is
    [width] pixels wide. *)
Definition main_directives (width : nat) : list (string * string) :=
  [ ("INFILE", "bursts_unwrapped.bin"); ("INFILEFORMAT", "FLOAT_DATA");
    ("LINELENGTH", str (Z.of_nat width)); ("NLOOKSRANGE", "20");
    ("NLOOKSAZ", "4"); ("OUTFILE", "bursts_reunwrapped.bin");
    ("OUTFILEFORMAT", "FLOAT_DATA"); ("CORRFILE", "bursts_correlation.bin");
    ("CORRFILEFORMAT", "FLOAT_DATA"); ("STATCOSTMODE", "DEFO");
    ("DEFOMAX_CYCLE", "4.0"); ("INITMETHOD", "MCF"); ("MAXNCOMPS", "32");
    ("BYTEMASKFILE", "bursts_mask.bin"); ("UNWRAPPED_IN", "TRUE");
    ("UNWRAPPEDINFILEFORMAT", "FLOAT_DATA") ].

(** A file system with the five rasters [main] reads, each 1 x 2. *)
Definition driver_fs : filesystem :=
  <["bursts_mask.tif" := RasterFile (byte_raster [0; 1] None)]> (
  <["bursts_correlation.tif" := RasterFile (float_raster None)]> (
  <["bursts_wrapped.tif" := RasterFile (float_raster (Some minus_9999))]> (
  <["bursts_unwrapped_corrected.tif" := RasterFile (float_raster None)]> (
  <["bursts_unwrapped.tif" := RasterFile (float_raster None)]> ∅)))).

(** A tool that is not installed: the shell reports status 127 and no file
    changes. *)
Definition absent_tool : string -> filesystem -> Z * filesystem :=
  fun _ fs => (127, fs).

(** A tool whose output is its input: it copies [bursts_unwrapped.bin] to
    [bursts_reunwrapped.bin], and fails without it. *)
Definition copying_tool : string -> filesystem -> Z * filesystem :=
  fun _ fs =>
    match fs !! "bursts_unwrapped.bin" with
    | Some f => (0, <["bursts_reunwrapped.bin" := f]> fs)
    | None => (1, fs)
    end.

(** The first statement of [main]: the loop over the five rasters. *)
Definition main_conversions (copy : GDALDataType -> GDALDataType -> Z -> Z)
    (angle : Z -> Z) : io unit :=
  for_each (fun '(name, dtype) =>
              gdal_to_binary copy angle (name +:+ ".tif") (name +:+ ".bin")
                dtype)
    [ ("bursts_unwrapped", GDT_Float32);
      ("bursts_unwrapped_corrected", GDT_Float32);
      ("bursts_wrapped", GDT_Float32);
      ("bursts_correlation", GDT_Float32);
      ("bursts_mask", GDT_Byte) ].

(** The five rasters [main] reads. *)
Definition main_inputs : list string :=
  [ "bursts_unwrapped.tif"; "bursts_unwrapped_corrected.tif";
    "bursts_wrapped.tif"; "bursts_correlation.tif"; "bursts_mask.tif" ].

(** * Properties of the configuration generator *)

(** ** The scanners on small inputs *)

Example format_fills :
  format "a {{b}} {infile}: {width}"
    (<["infile" := PyStr "x.bin"]> (<["width" := PyInt (-12)]> ∅))
  = Ok "a {b} x.bin: -12".
Proof. reflexivity. Qed.

Example format_missing_key : format "{mask}" ∅ = Raise (KeyError "mask").
Proof. reflexivity. Qed.

Example format_positional : format "{}" ∅ = Raise IndexError.
Proof. reflexivity. Qed.

Example format_single_brace : format "a } b" ∅ = Raise ValueError.
Proof. reflexivity. Qed.

Example directives_small :
  directives "
    # a comment
    KEY   v w

    OTHER x"
  = [("KEY", "v w"); ("OTHER", "x")].
Proof. reflexivity. Qed.

(** ** [format] distributes over concatenation *)

Lemma string_app_assoc (s1 s2 s3 : string) :
  (s1 +:+ s2) +:+ s3 = s1 +:+ (s2 +:+ s3).
Proof.
  induction s1 as [|c s1 IH]; [done|].
  change (String c (s1 +:+ s2 +:+ s3)) with (String c s1 +:+ s2 +:+ s3).
  change (String c ((s1 +:+ s2) +:+ s3) = String c (s1 +:+ s2 +:+ s3)).
  by rewrite IH.
Qed.

Lemma string_app_nil_r (s : string) : s +:+ "" = s.
Proof.
  induction s as [|c s IH]; [done|].
  change (String c (s +:+ "") = String c s). by rewrite IH.
Qed.

Lemma format_go_app kwargs st s1 s2 r1 :
  format_go kwargs st s1 = Ok r1 ->
  format_go kwargs st (s1 +:+ s2) = String.app r1 <$> format_go kwargs Text s2.
Proof.
  revert st r1. induction s1 as [|c s1 IH]; intros st r1 H.
  - destruct st; simpl in H; try discriminate.
    injection H as <-. change ("" +:+ s2) with s2.
    by destruct (format_go kwargs Text s2).
  - change (String c s1 +:+ s2) with (String c (s1 +:+ s2)).
    simpl in *.
    destruct st, (fmt_class c); try discriminate; auto;
      try destruct (get_value kwargs _) as [v|]; simpl in *; try discriminate.
    all: (destruct (format_go kwargs Text s1) as [r|] eqn:E; simpl in H;
       [injection H as <-|discriminate]).
    all: rewrite (IH _ _ E).
    all: destruct (format_go kwargs Text s2); simpl; [|done].
    all: by rewrite ?string_app_assoc.
Qed.

(** ** Each template renders to its section *)

Section sections.
Context (kwargs : gmap string pyval).

Ltac fill_fields :=
  unfold format; cbn -[lookup];
  repeat match goal with
    | H : kwargs !! ?k = Some _ |- context [kwargs !! ?k] =>
        rewrite H; cbn -[lookup]
    end.

Lemma format_base infile informat width looks_range looks_az outfile
    outformat corfile :
  kwargs !! "infile" = Some infile ->
  kwargs !! "informat" = Some informat ->
  kwargs !! "width" = Some width ->
  kwargs !! "looks_range" = Some looks_range ->
  kwargs !! "looks_az" = Some looks_az ->
  kwargs !! "outfile" = Some outfile ->
  kwargs !! "outformat" = Some outformat ->
  kwargs !! "corfile" = Some corfile ->
  format base_template kwargs =
    Ok (base_section (py_str infile) (py_str informat) (py_str width)
          (py_str looks_range) (py_str looks_az) (py_str outfile)
          (py_str outformat) (py_str corfile)).
Proof. intros. fill_fields. reflexivity. Qed.

Lemma format_tile ntilerow ntilecol overlap nproc :
  kwargs !! "ntilerow" = Some ntilerow ->
  kwargs !! "ntilecol" = Some ntilecol ->
  kwargs !! "overlap" = Some overlap ->
  kwargs !! "nproc" = Some nproc ->
  format tile_template kwargs =
    Ok (tile_section (py_str ntilerow) (py_str ntilecol) (py_str overlap)
          (py_str nproc)).
Proof. intros. fill_fields. reflexivity. Qed.

Lemma format_mask mask :
  kwargs !! "mask" = Some mask ->
  format mask_template kwargs = Ok (mask_section (py_str mask)).
Proof. intros. fill_fields. reflexivity. Qed.

Lemma format_unwrap : format unwrap_template kwargs = Ok unwrap_section.
Proof. reflexivity. Qed.

(** A field the dictionary does not bind is a [KeyError]. *)
Lemma format_mask_missing :
  kwargs !! "mask" = None ->
  format mask_template kwargs = Raise (KeyError "mask").
Proof. intros H. unfold format. cbn -[lookup]. by rewrite H. Qed.

Lemma format_app s1 s2 r1 r2 :
  format s1 kwargs = Ok r1 ->
  format s2 kwargs = Ok r2 ->
  format (s1 +:+ s2) kwargs = Ok (r1 +:+ r2).
Proof.
  unfold format. intros H1 H2. by rewrite (format_go_app _ _ _ _ _ H1), H2.
Qed.
End sections.

Ltac render :=
  lazymatch goal with
  | |- format (_ +:+ _) _ = _ => eapply format_app; [render | render]
  | |- format base_template _ = _ => eapply format_base; reflexivity
  | |- format tile_template _ = _ => eapply format_tile; reflexivity
  | |- format mask_template _ = _ => eapply format_mask; reflexivity
  | |- format unwrap_template _ = _ => eapply format_unwrap
  end.

Lemma write_snaphu_config_text in_ifg in_cor looks_az looks_range shape
    out_conf out_file tile_shape tile_overlap in_mask unwrapped width
    (fs : filesystem) :
  shape !! 1%nat = Some width ->
  tile_shape_ok tile_shape ->
  write_snaphu_config in_ifg in_cor looks_az looks_range shape out_conf
    out_file tile_shape tile_overlap in_mask unwrapped fs
  = (Ok (out_conf, out_file),
     <[out_conf := FlatFile (encode_text
         (config_text in_ifg in_cor looks_az looks_range width out_file
            tile_shape tile_overlap in_mask unwrapped))]> fs).
Proof.
  intros Hw Ht. unfold write_snaphu_config. rewrite Hw.
  destruct tile_shape as [[|r [|c [|? ?]]]|]; try discriminate Ht;
    destruct in_mask as [[|a m]|]; destruct unwrapped.
  all: cbv [mbind io_bind mret io_ret lift raise write_text tuple_truthy
            str_truthy from_option].
  all: match goal with
       | |- context [format ?t ?o] =>
           let H := fresh in
           eassert (format t o = Ok _) as H; [render | rewrite H]
       end.
  all: unfold config_text, tile_part, mask_part, unwrap_part, str.
  all: rewrite ?string_app_assoc, ?string_app_nil_r.
  all: reflexivity.
Qed.

Lemma snoc_app (s t : string) (c : ascii) : snoc s c +:+ t = s +:+ String c t.
Proof.
  induction s as [|d s IH]; [done|].
  change (String d (snoc s c +:+ t) = String d (s +:+ String c t)).
  by rewrite IH.
Qed.

Lemma run_app st s1 s2 :
  run st (s1 +:+ s2) =
    ((run st s1).1 ++ (run (run st s1).2 s2).1, (run (run st s1).2 s2).2).
Proof.
  revert st. induction s1 as [|c s1 IH]; intros st.
  - change ("" +:+ s2) with s2. simpl. by destruct (run st s2).
  - change (String c s1 +:+ s2) with (String c (s1 +:+ s2)). simpl.
    destruct (step st c) as [ds st1]. rewrite IH.
    destruct (run st1 s1) as [ds1 st2]; simpl.
    destruct (run st2 s2) as [ds2 st3]; simpl.
    by rewrite app_assoc.
Qed.

Lemma run_val k acc v :
  one_line v = true ->
  (acc = "" -> starts_blank v = false) ->
  run (Val k acc) v = ([], Val k (acc +:+ v)).
Proof.
  revert acc. induction v as [|c v IH]; intros acc Hl Hb; simpl.
  - by rewrite string_app_nil_r.
  - simpl in Hl, Hb. unfold step.
    destruct (line_class c); try discriminate.
    + destruct acc as [|a acc]; [by specialize (Hb eq_refl)|].
      rewrite IH; [|done|done]. by rewrite snoc_app.
    + destruct acc as [|a acc]; (rewrite IH; [|done|done]); by rewrite snoc_app.
    + destruct acc as [|a acc]; (rewrite IH; [|done|done]); by rewrite snoc_app.
Qed.

Lemma run_plain k v : plain v = true -> run (Val k "") v = ([], Val k v).
Proof.
  unfold plain. intros [Hl Hb%negb_true_iff]%andb_true_iff.
  by rewrite run_val.
Qed.

(** Decimal numerals are plain. *)
Lemma one_line_uint (d : Decimal.uint) :
  one_line (NilEmpty.string_of_uint d) = true
  /\ starts_blank (NilEmpty.string_of_uint d) = false.
Proof. induction d; simpl; tauto. Qed.

Lemma plain_str (n : Z) : plain (str n) = true.
Proof.
  unfold plain, str, py_str, NilZero.string_of_int, NilZero.string_of_uint.
  destruct (Z.to_int n) as [d|d]; destruct d; simpl;
    try reflexivity;
    match goal with
    | |- context [NilEmpty.string_of_uint ?d] =>
        destruct (one_line_uint d) as [-> ?]
    end; reflexivity.
Qed.

(** Scanning a text made of segments: each segment is scanned from the state
    the previous one ends in. *)
Lemma run_seq st s1 s2 ds1 st1 ds2 st2 :
  run st s1 = (ds1, st1) ->
  run st1 s2 = (ds2, st2) ->
  run st (s1 +:+ s2) = (ds1 ++ ds2, st2).
Proof. intros H1 H2. rewrite run_app, H1. simpl. by rewrite H2. Qed.

Ltac scan_segment :=
  first
    [ apply run_plain; assumption
    | lazymatch goal with
      | |- run ?st ?s = ?rhs =>
          let r := eval vm_compute in (run st s) in
          unify rhs r; vm_compute; reflexivity
      end ].

Ltac scan :=
  lazymatch goal with
  | |- run _ (_ +:+ _) = _ => eapply run_seq; [scan_segment | scan]
  | |- _ => scan_segment
  end.

Lemma run_base infile informat width looks_range looks_az outfile outformat
    corfile :
  plain infile = true -> plain informat = true -> plain width = true ->
  plain looks_range = true -> plain looks_az = true ->
  plain outfile = true -> plain outformat = true -> plain corfile = true ->
  run Indent (base_section infile informat width looks_range looks_az outfile
                outformat corfile)
  = ([ ("INFILE", infile); ("INFILEFORMAT", informat); ("LINELENGTH", width);
       ("NLOOKSRANGE", looks_range); ("NLOOKSAZ", looks_az);
       ("OUTFILE", outfile); ("OUTFILEFORMAT", outformat);
       ("CORRFILE", corfile); ("CORRFILEFORMAT", "FLOAT_DATA");
       ("STATCOSTMODE", "DEFO"); ("DEFOMAX_CYCLE", "4.0");
       ("INITMETHOD", "MCF"); ("MAXNCOMPS", "32") ], Indent).
Proof.
  intros. unfold base_section. etransitivity; [scan|reflexivity].
Qed.

Lemma run_tile ntilerow ntilecol overlap nproc :
  plain ntilerow = true -> plain ntilecol = true -> plain overlap = true ->
  plain nproc = true ->
  run Indent (tile_section ntilerow ntilecol overlap nproc)
  = ([ ("NTILEROW", ntilerow); ("NTILECOL", ntilecol); ("ROWOVRLP", overlap);
       ("COLOVRLP", overlap); ("NPROC", nproc) ], Indent).
Proof.
  intros. unfold tile_section. etransitivity; [scan|reflexivity].
Qed.

Lemma run_mask mask :
  plain mask = true ->
  run Indent (mask_section mask) = ([("BYTEMASKFILE", mask)], Indent).
Proof.
  intros. unfold mask_section. etransitivity; [scan|reflexivity].
Qed.

Lemma run_unwrap : run Indent unwrap_section = (unwrap_directives true, Indent).
Proof. reflexivity. Qed.

(** The directives of a whole configuration: those of its sections, in
    order. *)
Lemma directives_config in_ifg in_cor looks_az looks_range width out_file
    tile_shape tile_overlap in_mask unwrapped :
  plain in_ifg = true -> plain in_cor = true -> plain out_file = true ->
  from_option plain true in_mask = true ->
  directives (config_text in_ifg in_cor looks_az looks_range width out_file
                tile_shape tile_overlap in_mask unwrapped)
  = base_directives in_ifg in_cor looks_az looks_range width out_file
    ++ tile_directives tile_shape tile_overlap
    ++ mask_directives in_mask
    ++ unwrap_directives unwrapped.
Proof.
  intros Hi Hc Ho Hm. unfold directives, config_text.
  assert (run Indent (tile_part tile_shape tile_overlap)
          = (tile_directives tile_shape tile_overlap, Indent)) as Ht.
  { destruct tile_shape as [[|r [|c [|? ?]]]|]; try reflexivity.
    apply run_tile; apply plain_str. }
  assert (run Indent (mask_part in_mask) = (mask_directives in_mask, Indent))
    as Hmask.
  { destruct in_mask as [[|a m]|]; try reflexivity. by apply run_mask. }
  assert (run Indent (unwrap_part unwrapped)
          = (unwrap_directives unwrapped, Indent)) as Hu.
  { by destruct unwrapped. }
  erewrite run_seq;
    [| apply run_base; auto using plain_str
     | eapply run_seq; [apply Ht | eapply run_seq; [apply Hmask | apply Hu]]].
  simpl. by rewrite !app_nil_r.
Qed.

(** ** Claims about the configuration generator *)

(** C4: the configuration written by [write_snaphu_config] is the base
    section, then the tiling section when a tile grid shape is given, then
    the masking section when a mask path is given, then the pre-unwrapped
    section when the flag is set, concatenated in that order with nothing in
    between; a section that is not requested contributes the empty text. *)
Theorem write_snaphu_config_sections in_ifg in_cor looks_az looks_range shape
    out_conf out_file tile_shape tile_overlap in_mask unwrapped width
    ntilerow ntilecol (fs : filesystem) :
  shape !! 1%nat = Some width ->
  (tuple_truthy tile_shape = true -> tile_shape = Some [ntilerow; ntilecol]) ->
  write_snaphu_config in_ifg in_cor looks_az looks_range shape out_conf
    out_file tile_shape tile_overlap in_mask unwrapped fs
  = (Ok (out_conf, out_file),
     <[out_conf := FlatFile (encode_text
         (base_section in_ifg "FLOAT_DATA" (str width) (str looks_range)
            (str looks_az) out_file "FLOAT_DATA" in_cor
          +:+ (if tuple_truthy tile_shape
               then tile_section (str ntilerow) (str ntilecol)
                      (str tile_overlap) (str (ntilerow * ntilecol))
               else "")
          +:+ (if str_truthy in_mask
               then mask_section (default "" in_mask)
               else "")
          +:+ (if unwrapped then unwrap_section else "")))]> fs).
Proof.
  intros Hw Ht.
  rewrite (write_snaphu_config_text _ _ _ _ _ _ _ _ _ _ _ width); [|done|].
  - destruct tile_shape as [[|r l]|]; [| rewrite (Ht eq_refl) |];
      by destruct in_mask as [[|a m]|].
  - destruct tile_shape as [[|r l]|]; [done| |done].
    by rewrite (Ht eq_refl).
Qed.

Lemma write_snaphu_config_sections_witness :
  ([100; 200] : list Z) !! 1%nat = Some 200
  /\ (tuple_truthy (Some [3; 3]) = true -> Some [3; 3] = Some [3; 3])
  /\ write_snaphu_config "bursts_unwrapped.bin" "bursts_correlation.bin" 4 20
       [100; 200] "snaphu.conf" "bursts_reunwrapped.bin" (Some [3; 3]) 600
       (Some "bursts_mask.bin") true ∅
     = (Ok ("snaphu.conf", "bursts_reunwrapped.bin"),
        {["snaphu.conf" := FlatFile (encode_text
            (base_section "bursts_unwrapped.bin" "FLOAT_DATA" "200" "20" "4"
               "bursts_reunwrapped.bin" "FLOAT_DATA" "bursts_correlation.bin"
             +:+ tile_section "3" "3" "600" "9"
             +:+ mask_section "bursts_mask.bin"
             +:+ unwrap_section))]}).
Proof.
  split; [reflexivity|]. split; [reflexivity|].
  apply (write_snaphu_config_sections "bursts_unwrapped.bin"
           "bursts_correlation.bin" 4 20 [100; 200] "snaphu.conf"
           "bursts_reunwrapped.bin" (Some [3; 3]) 600 (Some "bursts_mask.bin")
           true 200 3 3 ∅); reflexivity.
Defined.





(** C7: whatever the value of the unwrapped flag (and of the other optional
    arguments), the configuration starts with the base section rendered with
    the literal FLOAT_DATA as input format; and when the path arguments are
    single-line texts, INFILEFORMAT occurs once among the directives, with
    the value FLOAT_DATA. *)
Theorem informat_fixed in_ifg in_cor looks_az looks_range shape out_conf
    out_file tile_shape tile_overlap in_mask unwrapped width
    (fs : filesystem) :
  shape !! 1%nat = Some width ->
  tile_shape_ok tile_shape ->
  exists text rest,
    write_snaphu_config in_ifg in_cor looks_az looks_range shape out_conf
      out_file tile_shape tile_overlap in_mask unwrapped fs
    = (Ok (out_conf, out_file), <[out_conf := FlatFile (encode_text text)]> fs)
    /\ text = base_section in_ifg "FLOAT_DATA" (str width) (str looks_range)
                (str looks_az) out_file "FLOAT_DATA" in_cor +:+ rest
    /\ (plain in_ifg = true -> plain in_cor = true ->
        plain out_file = true -> from_option plain true in_mask = true ->
        values_of "INFILEFORMAT" (directives text) = ["FLOAT_DATA"]).
Proof.
  intros Hw Ht. do 2 eexists.
  split; [by apply (write_snaphu_config_text _ _ _ _ _ _ _ _ _ _ _ width)|].
  split; [reflexivity|].
  intros Hi Hc Ho Hm. rewrite directives_config by done.
  destruct tile_shape as [[|r [|c [|? ?]]]|]; try discriminate Ht;
    destruct in_mask as [[|a m]|]; destruct unwrapped; reflexivity.
Qed.

Lemma informat_fixed_witness :
  exists text,
    write_snaphu_config "bursts_unwrapped.bin" "bursts_correlation.bin" 4
      20 [100; 200] "snaphu.conf" "bursts_reunwrapped.bin" None 600
      (Some "bursts_mask.bin") true ∅
    = (Ok ("snaphu.conf", "bursts_reunwrapped.bin"),
       {["snaphu.conf" := FlatFile (encode_text text)]})
    /\ values_of "INFILEFORMAT" (directives text) = ["FLOAT_DATA"].
Proof.
  destruct (informat_fixed "bursts_unwrapped.bin" "bursts_correlation.bin" 4
              20 [100; 200] "snaphu.conf" "bursts_reunwrapped.bin" None 600
              (Some "bursts_mask.bin") true 200 ∅ eq_refl I)
    as (text & rest & Hrun & _ & Hdir).
  exists text. split; [exact Hrun|]. apply Hdir; reflexivity.
Defined.

(** C10: an empty mask path and an empty tile grid shape are treated as
    absent: the call behaves as with [None], the section is omitted, and the
    configuration is still written. *)
Theorem falsy_options_omitted in_ifg in_cor looks_az looks_range shape out_conf
    out_file tile_shape tile_overlap in_mask unwrapped width
    (fs : filesystem) :
  shape !! 1%nat = Some width ->
  tile_shape_ok tile_shape ->
  (write_snaphu_config in_ifg in_cor looks_az looks_range shape out_conf
     out_file tile_shape tile_overlap (Some "") unwrapped fs
   = write_snaphu_config in_ifg in_cor looks_az looks_range shape out_conf
       out_file tile_shape tile_overlap None unwrapped fs
   /\ write_snaphu_config in_ifg in_cor looks_az looks_range shape out_conf
        out_file tile_shape tile_overlap (Some "") unwrapped fs
      = (Ok (out_conf, out_file),
         <[out_conf := FlatFile (encode_text
             (base_section in_ifg "FLOAT_DATA" (str width) (str looks_range)
                (str looks_az) out_file "FLOAT_DATA" in_cor
              +:+ tile_part tile_shape tile_overlap
              +:+ (if unwrapped then unwrap_section else "")))]> fs))
  /\ (write_snaphu_config in_ifg in_cor looks_az looks_range shape out_conf
        out_file (Some []) tile_overlap in_mask unwrapped fs
      = write_snaphu_config in_ifg in_cor looks_az looks_range shape out_conf
          out_file None tile_overlap in_mask unwrapped fs
      /\ write_snaphu_config in_ifg in_cor looks_az looks_range shape out_conf
           out_file (Some []) tile_overlap in_mask unwrapped fs
         = (Ok (out_conf, out_file),
            <[out_conf := FlatFile (encode_text
                (base_section in_ifg "FLOAT_DATA" (str width)
                   (str looks_range) (str looks_az) out_file "FLOAT_DATA"
                   in_cor
                 +:+ mask_part in_mask
                 +:+ (if unwrapped then unwrap_section else "")))]> fs)).
Proof.
  intros Hw Ht. repeat split; try reflexivity.
  - by rewrite (write_snaphu_config_text _ _ _ _ _ _ _ _ _ _ _ width).
  - by rewrite (write_snaphu_config_text _ _ _ _ _ _ _ _ _ _ _ width).
Qed.

Lemma falsy_options_omitted_witness :
  ([100; 200] : list Z) !! 1%nat = Some 200
  /\ tile_shape_ok None
  /\ write_snaphu_config "ifg.bin" "cor.bin" 4 20 [100; 200] "snaphu.conf"
       "unw.bin" None 600 (Some "") false ∅
     = (Ok ("snaphu.conf", "unw.bin"),
        {["snaphu.conf" := FlatFile (encode_text
            (base_section "ifg.bin" "FLOAT_DATA" "200" "20" "4" "unw.bin"
               "FLOAT_DATA" "cor.bin" +:+ "" +:+ ""))]})
  /\ write_snaphu_config "ifg.bin" "cor.bin" 4 20 [100; 200] "snaphu.conf"
       "unw.bin" (Some []) 600 None false ∅
     = write_snaphu_config "ifg.bin" "cor.bin" 4 20 [100; 200] "snaphu.conf"
         "unw.bin" None 600 None false ∅.
Proof.
  split; [reflexivity|]. split; [exact I|].
  destruct (falsy_options_omitted "ifg.bin" "cor.bin" 4 20 [100; 200]
              "snaphu.conf" "unw.bin" None 600 None false 200 ∅ eq_refl I)
    as [[_ H1] [H2 _]].
  split; [exact H1 | exact H2].
Defined.

(** * Properties of the codecs *)

(** ** Element conversions on small inputs *)

(** 1.0, -9999.0 and 0.1 (not a binary32 number: it is rounded) as binary32
    bit patterns. *)
Example float32_bits_values :
  float32_bits (S754_finite false 1 0) = 0x3F800000
  /\ float32_bits minus_9999 = 0xC61C3C00
  /\ float32_bits (S754_finite false 0x1999999999999a (-56)) = 0x3DCCCCCD.
Proof. repeat split. Qed.

(** 100 is stored in an [int8] element as the byte 100 and -2.5, truncated
    to -2, as the byte 254, either way.  255 is out of bounds: it is stored
    as the byte 255, which [int8] reads as -1 and GDAL's [Byte] as 255, or
    refused.  NaN and [None] are refused either way. *)
Example setitem_value_int8 :
  setitem_value KeepLowBits np_int8 (Some plus_100) = Ok 100
  /\ setitem_value RaiseOverflow np_int8 (Some plus_100) = Ok 100
  /\ setitem_value KeepLowBits np_int8 (Some (S754_finite true 5 (-1))) = Ok 254
  /\ setitem_value RaiseOverflow np_int8 (Some (S754_finite true 5 (-1))) = Ok 254
  /\ setitem_value KeepLowBits np_int8 (Some plus_255) = Ok 255
  /\ setitem_value RaiseOverflow np_int8 (Some plus_255) = Raise OverflowError
  /\ setitem_value KeepLowBits np_int8 (Some S754_nan) = Raise ValueError
  /\ setitem_value RaiseOverflow np_int8 (Some S754_nan) = Raise ValueError
  /\ setitem_value KeepLowBits np_int8 None = Raise TypeError
  /\ setitem_value RaiseOverflow np_int8 None = Raise TypeError.
Proof. repeat split. Qed.

(** The nodata values an array takes: a [float32] array takes every one,
    as its binary32 rounding; an [int8] array takes the ones that [int()]
    turns into an integer the array keeps, as the low byte of that
    integer. *)
Lemma setitem_value_ok ov t nodata v :
  setitem_value ov t (Some nodata) = Ok v
  <-> (t = np_float32 /\ v = float32_bits nodata)
      \/ (t = np_int8 /\ exists k, float_to_long nodata = Ok k
                                  /\ int8_keeps ov k = true /\ v = k mod 256).
Proof.
  unfold setitem_value. split.
  - destruct t; try discriminate.
    + destruct (float_to_long nodata) as [k|e]; [|discriminate]. simpl.
      destruct (int8_keeps ov k) eqn:Hk; [|discriminate].
      intros [= <-]. right. split; [done|]. by exists k.
    + intros [= <-]. by left.
  - intros [[-> ->]|[-> (k & -> & Hk & ->)]]; [done|]. simpl. by rewrite Hk.
Qed.

Example setitem_value_float32_none ov :
  setitem_value ov np_float32 None = Ok float32_nan.
Proof. reflexivity. Qed.

Example le_bytes_one : le_bytes 4 0x3F800000 = [0; 0; 128; 63].
Proof. reflexivity. Qed.

(** ** Encoding and decoding of elements *)

Lemma length_le_bytes k p : length (le_bytes k p) = k.
Proof. revert p. induction k as [|k IH]; intros p; simpl; [done|]. by rewrite IH. Qed.

Lemma le_value_le_bytes k p :
  0 <= p < 256 ^ Z.of_nat k -> le_value (le_bytes k p) = p.
Proof.
  revert p. induction k as [|k IH]; intros p Hp; simpl.
  - change (256 ^ Z.of_nat 0) with 1 in Hp. lia.
  - rewrite IH.
    + pose proof (Z.div_mod p 256). lia.
    + rewrite Nat2Z.inj_succ, Z.pow_succ_r in Hp by lia.
      split; [apply Z.div_pos; lia|]. apply Z.div_lt_upper_bound; lia.
Qed.

Lemma length_encode_items k l : length (encode_items k l) = (length l * k)%nat.
Proof.
  unfold encode_items. induction l as [|p l IH]; csimpl; [done|].
  rewrite length_app, length_le_bytes, IH. lia.
Qed.

Lemma decode_encode_items k l :
  Forall (fun p => 0 <= p < 256 ^ Z.of_nat k) l ->
  decode_items k (length l) (encode_items k l) = l.
Proof.
  unfold encode_items. induction 1 as [|p l Hp _ IH]; csimpl; [done|].
  rewrite take_app_length', drop_app_length' by (by rewrite length_le_bytes).
  by rewrite le_value_le_bytes, IH.
Qed.

Lemma length_decode_items k n bs : length (decode_items k n bs) = n.
Proof. revert bs. induction n as [|n IH]; intros bs; simpl; [done|]. by rewrite IH. Qed.

(** ** The effect of [binary_to_gdal] *)

Ltac io_step :=
  unfold mbind, io_bind, mret, io_ret, lift, raise; simpl.

Lemma modify_dataset_insert path f r (fs : filesystem) :
  modify_dataset path f (<[path := RasterFile r]> fs)
  = (Ok tt, <[path := RasterFile (f r)]> fs).
Proof.
  unfold modify_dataset. by rewrite lookup_insert_eq, insert_insert_eq.
Qed.

Lemma WriteArray_insert copy path arr r (fs : filesystem) :
  shape arr = [RasterYSize r; RasterXSize r] ->
  NumericTypeCodeToGDALTypeCode (dtype arr) = DataType r ->
  WriteArray copy path arr (<[path := RasterFile r]> fs)
  = (Ok tt,
     <[path := RasterFile
         {| RasterYSize := RasterYSize r; RasterXSize := RasterXSize r;
            DataType := DataType r; NoDataValue := NoDataValue r;
            GeoTransform := GeoTransform r; Projection := Projection r;
            Band1 := data arr |}]> fs).
Proof.
  intros Hs Hd. unfold WriteArray.
  rewrite lookup_insert_eq, insert_insert_eq.
  by rewrite !decide_True.
Qed.

Lemma Create_ok path xsize ysize t (fs : filesystem) :
  (0 < ysize * xsize)%nat ->
  Create path xsize ysize t fs
  = (Ok path,
     <[path := RasterFile
         {| RasterYSize := ysize; RasterXSize := xsize; DataType := t;
            NoDataValue := None; GeoTransform := default_geotransform;
            Projection := "";
            Band1 := replicate (ysize * xsize) 0 |}]> fs).
Proof.
  intros H. unfold Create. rewrite bool_decide_eq_false_2; [done|]. lia.
Qed.

Lemma binary_to_gdal_result ov copy inpath templatepath maskpath outpath
    (fs : filesystem) ds mask_ds bytes py_dtype :
  fs !! templatepath = Some (RasterFile ds) ->
  template_dtype (DataType ds) = Some py_dtype ->
  fs !! maskpath = Some (RasterFile mask_ds) ->
  fs !! inpath = Some (FlatFile bytes) ->
  let n := (RasterYSize ds * RasterXSize ds)%nat in
  let mask := ReadAsArray copy mask_ds None in
  let pixels v := masked (dtype mask) v (data mask)
                    (decode_items (itemsize py_dtype) n bytes) in
  Nat.div (length bytes) (itemsize py_dtype) = n ->
  RasterYSize mask_ds = RasterYSize ds ->
  RasterXSize mask_ds = RasterXSize ds ->
  (0 < n)%nat ->
  binary_to_gdal ov copy inpath templatepath maskpath outpath fs
  = match setitem_value ov py_dtype (NoDataValue ds) with
    | Raise e => (Raise e, fs)
    | Ok v =>
        match NoDataValue ds with
        | None =>
            (Raise TypeError,
             <[outpath := RasterFile (output_raster ds None (pixels v))]> fs)
        | Some nodata =>
            (Ok tt,
             <[outpath := RasterFile (output_raster ds (Some nodata) (pixels v))]> fs)
        end
    end.
Proof.
  intros Ht Hd Hm Hi n mask pixels Hn Hy Hx Hpos.
  unfold binary_to_gdal, gdal_Open. io_step. rewrite Ht.
  assert (NumericTypeCodeToGDALTypeCode py_dtype = DataType ds) as Hback.
  { destruct (DataType ds); simpl in Hd; by simplify_eq. }
  assert (match DataType ds with
          | GDT_Byte => fun fs0 : filesystem => (Ok np_int8, fs0)
          | GDT_Float32 => fun fs0 : filesystem => (Ok np_float32, fs0)
          | _ => @lift np_dtype (Raise NotImplementedError)
          end fs = (Ok py_dtype, fs)) as ->.
  { destruct (DataType ds); simpl in Hd; by simplify_eq. }
  rewrite Hm. unfold fromfile. rewrite Hi, Hn.
  unfold reshape; simpl. rewrite length_decode_items.
  rewrite decide_True by (subst n; lia).
  unfold assign_where_zero; simpl. rewrite Hy, Hx, decide_True by done.
  destruct (setitem_value ov py_dtype (NoDataValue ds)) as [v|e]; simpl; [|done].
  rewrite Create_ok by done.
  unfold SetGeoTransform, SetProjection. rewrite !modify_dataset_insert; simpl.
  rewrite WriteArray_insert by done. simpl.
  unfold SetNoDataValue.
  destruct (NoDataValue ds) as [nodata|]; [|done].
  by rewrite modify_dataset_insert.
Qed.

Lemma masked_lookup mask_dtype v mask decoded i m x :
  mask !! i = Some m -> decoded !! i = Some x ->
  masked mask_dtype v mask decoded !! i
  = Some (if is_zero mask_dtype m then v else x).
Proof.
  intros Hm Hx. unfold masked. by rewrite lookup_zip_with, Hm, Hx.
Qed.

Lemma masked_all_valid mask_dtype v mask decoded :
  Forall (fun m => is_zero mask_dtype m = false) mask ->
  length mask = length decoded ->
  masked mask_dtype v mask decoded = decoded.
Proof.
  unfold masked. intros H. revert decoded.
  induction H as [|m mask Hm _ IH]; intros [|x decoded] Hlen;
    simplify_eq/=; [done|].
  by rewrite Hm, IH.
Qed.

Lemma ReadAsArray_length copy ds buf_type :
  length (data (ReadAsArray copy ds buf_type)) = length (Band1 ds).
Proof.
  unfold ReadAsArray; simpl. case_decide; [done|]. by rewrite length_fmap.
Qed.

(** ** The effect of [gdal_to_binary] on a raster read in its own type *)

Lemma gdal_to_binary_result copy angle inpath outpath (fs : filesystem) ds
    py_dtype :
  fs !! inpath = Some (RasterFile ds) ->
  template_dtype (DataType ds) = Some py_dtype ->
  Forall (fun p => 0 <= p < 256 ^ Z.of_nat (itemsize py_dtype)) (Band1 ds) ->
  gdal_to_binary copy angle inpath outpath (DataType ds) fs
  = (Ok tt,
     <[outpath := FlatFile (encode_items (itemsize py_dtype) (Band1 ds))]> fs).
Proof.
  intros Hi Hd Hr. unfold gdal_to_binary, gdal_Open, tofile, ReadAsArray.
  destruct (DataType ds) eqn:Ht; simplify_eq/=; io_step; rewrite Hi, Ht; simpl.
  - do 3 f_equal. f_equal.
    apply list_eq. intros i. rewrite list_lookup_fmap.
    destruct (Band1 ds !! i) as [p|] eqn:Hp; [|done]. simpl.
    rewrite Forall_lookup in Hr. specialize (Hr _ _ Hp).
    change (256 ^ Z.of_nat 1) with 256 in Hr. by rewrite Z.mod_small.
  - done.
Qed.

(** ** Claims about the codecs *)

(** C1, as stated, fails for an 8-bit byte template whose nodata value is
    -9999, which no byte pixel can hold.  When the array keeps the low bits
    of a number out of bounds, the pixel where the mask is zero holds 241,
    the low byte of -9999, while the output band declares -9999 as its
    nodata value; when the array refuses the number, the assignment raises
    [OverflowError] and there is no output array. *)
Lemma byte_pixel_is_not_nodata :
  binary_to_gdal KeepLowBits no_copy "in.bin" "template.tif" "mask.tif" "out.tif"
    (example_fs (byte_raster [7; 200] (Some minus_9999)) [0; 1] [7; 200])
  = (Ok tt,
     <["out.tif" := RasterFile
         (output_raster (byte_raster [7; 200] (Some minus_9999))
            (Some minus_9999) [241; 200])]>
       (example_fs (byte_raster [7; 200] (Some minus_9999)) [0; 1] [7; 200]))
  /\ binary_to_gdal RaiseOverflow no_copy "in.bin" "template.tif" "mask.tif"
       "out.tif"
       (example_fs (byte_raster [7; 200] (Some minus_9999)) [0; 1] [7; 200])
     = (Raise OverflowError,
        example_fs (byte_raster [7; 200] (Some minus_9999)) [0; 1] [7; 200]).
Proof.
  split;
    rewrite (binary_to_gdal_result _ no_copy _ _ _ _ _
               (byte_raster [7; 200] (Some minus_9999))
               (byte_raster [0; 1] None) [7; 200] np_int8);
    (reflexivity || (simpl; lia)).
Qed.

(** C1, amended: for a template of pixel type 32-bit float or 8-bit byte
    that defines a nodata value, a mask of the template's shape and a binary
    file of height x width items, the pixels of the output array where the
    mask is not zero hold the elements decoded from the binary file, and
    the pixels where the mask is zero hold the nodata value converted to
    the pixel type.  For a float template that is its rounding to binary32.
    For a byte template it is the low byte of its integer part, when
    [int()] gives an integer and the array keeps it: always from -128 to
    127, and outside that range when the NumPy in use keeps the low bits.
    Otherwise the call raises the error of the conversion ([ValueError]
    for NaN, [OverflowError] for an infinity, for an integer beyond a C
    [long] and for an integer out of bounds that the array refuses) and no
    file is touched. *)
Theorem binary_to_gdal_masks ov copy inpath templatepath maskpath outpath
    (fs : filesystem) ds mask_ds bytes py_dtype nodata :
  fs !! templatepath = Some (RasterFile ds) ->
  template_dtype (DataType ds) = Some py_dtype ->
  NoDataValue ds = Some nodata ->
  fs !! maskpath = Some (RasterFile mask_ds) ->
  fs !! inpath = Some (FlatFile bytes) ->
  let n := (RasterYSize ds * RasterXSize ds)%nat in
  let mask := ReadAsArray copy mask_ds None in
  let decoded := decode_items (itemsize py_dtype) n bytes in
  Nat.div (length bytes) (itemsize py_dtype) = n ->
  RasterYSize mask_ds = RasterYSize ds ->
  RasterXSize mask_ds = RasterXSize ds ->
  length (Band1 mask_ds) = n ->
  (0 < n)%nat ->
  let result :=
    binary_to_gdal ov copy inpath templatepath maskpath outpath fs in
  let writes (v : Z) :=
    exists out,
      result = (Ok tt, <[outpath := RasterFile out]> fs)
      /\ RasterYSize out = RasterYSize ds
      /\ RasterXSize out = RasterXSize ds
      /\ length (Band1 out) = n
      /\ forall i m x,
           data mask !! i = Some m -> decoded !! i = Some x ->
           Band1 out !! i = Some (if is_zero (dtype mask) m then v else x) in
  (DataType ds = GDT_Float32 -> writes (float32_bits nodata))
  /\ (DataType ds = GDT_Byte ->
      match float_to_long nodata with
      | Ok k =>
          if int8_keeps ov k then writes (k mod 256)
          else result = (Raise OverflowError, fs)
      | Raise e => result = (Raise e, fs)
      end).
Proof.
  intros Ht Hd Hnd Hm Hi n mask decoded Hn Hy Hx Hlen Hpos result writes.
  assert (forall v, setitem_value ov py_dtype (Some nodata) = Ok v -> writes v)
    as Hwrites.
  { intros v Hv. eexists. split.
    - subst result.
      rewrite (binary_to_gdal_result ov copy _ _ _ _ _ _ _ _ _
                 Ht Hd Hm Hi Hn Hy Hx Hpos).
      rewrite Hnd, Hv. reflexivity.
    - split; [reflexivity|]. split; [reflexivity|].
      cbn [Band1 output_raster]. split.
      + unfold masked. rewrite length_zip_with, ReadAsArray_length, Hlen.
        rewrite length_decode_items. lia.
      + intros i m x Hmi Hxi. by apply masked_lookup. }
  split; intros Hty.
  - apply Hwrites, setitem_value_ok. left. split; [|done].
    rewrite Hty in Hd. by injection Hd.
  - assert (py_dtype = np_int8) as Hpy by (rewrite Hty in Hd; by injection Hd).
    pose proof (binary_to_gdal_result ov copy inpath templatepath maskpath
                  outpath _ _ _ _ _ Ht Hd Hm Hi Hn Hy Hx Hpos) as Hres.
    rewrite Hnd in Hres.
    destruct (float_to_long nodata) as [k|e] eqn:Hl.
    + destruct (int8_keeps ov k) eqn:Hk.
      * apply Hwrites, setitem_value_ok. right. split; [done|]. by exists k.
      * unfold result. rewrite Hres, Hpy. unfold setitem_value. rewrite Hl.
        unfold mbind, outcome_bind. by rewrite Hk.
    + unfold result. rewrite Hres, Hpy. unfold setitem_value. by rewrite Hl.
Qed.

Lemma binary_to_gdal_masks_witness :
  exists out,
    binary_to_gdal RaiseOverflow no_copy "in.bin" "template.tif" "mask.tif" "out.tif"
      (example_fs (byte_raster [7; 200] (Some plus_100)) [0; 1] [7; 200])
    = (Ok tt,
       <["out.tif" := RasterFile out]>
         (example_fs (byte_raster [7; 200] (Some plus_100)) [0; 1] [7; 200]))
    /\ RasterYSize out = 1%nat
    /\ RasterXSize out = 2%nat
    /\ length (Band1 out) = 2%nat
    /\ forall i m x,
         ([0; 1] : list Z) !! i = Some m ->
         ([7; 200] : list Z) !! i = Some x ->
         Band1 out !! i = Some (if is_zero np_uint8 m then 100 else x).
Proof.
  refine (proj2 (binary_to_gdal_masks RaiseOverflow no_copy "in.bin" "template.tif"
                   "mask.tif" "out.tif"
                   (example_fs (byte_raster [7; 200] (Some plus_100)) [0; 1]
                      [7; 200])
                   (byte_raster [7; 200] (Some plus_100))
                   (byte_raster [0; 1] None) [7; 200] np_int8 plus_100
                   _ _ _ _ _ _ _ _ _ _) eq_refl);
    (reflexivity || (simpl; lia)).
Defined.

(** C2, as stated, fails for a raster that defines no nodata value, which
    is what writing an array as a raster gives unless a nodata value is set
    as well.  The byte raster holding 7 and 200 is converted to the binary
    file of the bytes 7 and 200; converting that back with the raster as
    its own template and a mask without zeros raises [TypeError],
    whatever the array does out of bounds, and there is no output array to
    compare. *)
Lemma round_trip_without_nodata :
  gdal_to_binary no_copy no_angle "template.tif" "in.bin" GDT_Byte
    (example_fs (byte_raster [7; 200] None) [1; 1] [])
  = (Ok tt, example_fs (byte_raster [7; 200] None) [1; 1] [7; 200])
  /\ binary_to_gdal KeepLowBits no_copy "in.bin" "template.tif" "mask.tif"
       "out.tif" (example_fs (byte_raster [7; 200] None) [1; 1] [7; 200])
     = (Raise TypeError,
        example_fs (byte_raster [7; 200] None) [1; 1] [7; 200])
  /\ binary_to_gdal RaiseOverflow no_copy "in.bin" "template.tif" "mask.tif"
       "out.tif" (example_fs (byte_raster [7; 200] None) [1; 1] [7; 200])
     = (Raise TypeError,
        example_fs (byte_raster [7; 200] None) [1; 1] [7; 200])
  /\ example_fs (byte_raster [7; 200] None) [1; 1] [7; 200] !! "out.tif"
     = None.
Proof.
  split; [|split; [|split; [|reflexivity]]].
  - rewrite (gdal_to_binary_result no_copy no_angle "template.tif" "in.bin" _
               (byte_raster [7; 200] None) np_int8);
      [|reflexivity|reflexivity|repeat constructor; simpl; lia].
    unfold example_fs. by rewrite insert_insert_eq.
  - rewrite (binary_to_gdal_result KeepLowBits no_copy _ _ _ _ _
               (byte_raster [7; 200] None) (byte_raster [1; 1] None)
               [7; 200] np_int8);
      (reflexivity || (simpl; lia)).
  - rewrite (binary_to_gdal_result RaiseOverflow no_copy _ _ _ _ _
               (byte_raster [7; 200] None) (byte_raster [1; 1] None)
               [7; 200] np_int8);
      (reflexivity || (simpl; lia)).
Qed.

(** C2, amended: a raster of pixel type 32-bit float or 8-bit byte that
    defines a nodata value which an array of its type takes (a float array
    takes every value; a byte array the values that [int()] turns into an
    integer the array keeps), converted to a binary file by [gdal_to_binary]
    and back by [binary_to_gdal] with the raster itself as template and a
    mask without zeros, gives an output raster whose array equals the
    raster's array element for element. *)
Theorem round_trip ov copy angle rasterpath binpath maskpath outpath
    (fs : filesystem) ds mask_ds py_dtype nodata v :
  fs !! rasterpath = Some (RasterFile ds) ->
  template_dtype (DataType ds) = Some py_dtype ->
  let n := (RasterYSize ds * RasterXSize ds)%nat in
  let mask := ReadAsArray copy mask_ds None in
  length (Band1 ds) = n ->
  (0 < n)%nat ->
  Forall (fun p => 0 <= p < 256 ^ Z.of_nat (itemsize py_dtype)) (Band1 ds) ->
  NoDataValue ds = Some nodata ->
  setitem_value ov py_dtype (Some nodata) = Ok v ->
  fs !! maskpath = Some (RasterFile mask_ds) ->
  RasterYSize mask_ds = RasterYSize ds ->
  RasterXSize mask_ds = RasterXSize ds ->
  length (Band1 mask_ds) = n ->
  Forall (fun m => is_zero (dtype mask) m = false) (data mask) ->
  binpath <> rasterpath ->
  binpath <> maskpath ->
  exists fs1 out,
    gdal_to_binary copy angle rasterpath binpath (DataType ds) fs = (Ok tt, fs1)
    /\ binary_to_gdal ov copy binpath rasterpath maskpath outpath fs1
       = (Ok tt, <[outpath := RasterFile out]> fs1)
    /\ Band1 out = Band1 ds
    /\ RasterYSize out = RasterYSize ds
    /\ RasterXSize out = RasterXSize ds
    /\ DataType out = DataType ds.
Proof.
  intros Hr Hd n mask Hlen Hpos Hrange Hnd Hv Hm Hy Hx Hmlen Hvalid Hb1 Hb2.
  assert (itemsize py_dtype <> 0%nat) as Hk.
  { destruct (DataType ds); simplify_eq/=; done. }
  do 2 eexists. split.
  { by apply (gdal_to_binary_result copy angle _ _ _ ds py_dtype). }
  split.
  { rewrite (binary_to_gdal_result ov copy binpath rasterpath maskpath outpath _
               ds mask_ds (encode_items (itemsize py_dtype) (Band1 ds))
               py_dtype); try done.
    - by rewrite Hnd, Hv.
    - by rewrite lookup_insert_ne.
    - by rewrite lookup_insert_ne.
    - by rewrite lookup_insert_eq.
    - rewrite length_encode_items, Hlen. by apply Nat.div_mul. }
  cbn [Band1 RasterYSize RasterXSize DataType output_raster].
  split; [|done].
  subst n. rewrite <- Hlen, decode_encode_items by done.
  apply masked_all_valid; [done|].
  by rewrite ReadAsArray_length, Hmlen.
Qed.

Lemma round_trip_witness :
  exists fs1 out,
    gdal_to_binary no_copy no_angle "template.tif" "in.bin" GDT_Byte
      (example_fs (byte_raster [7; 200] (Some plus_100)) [1; 1] [])
    = (Ok tt, fs1)
    /\ binary_to_gdal RaiseOverflow no_copy "in.bin" "template.tif" "mask.tif" "out.tif" fs1
       = (Ok tt, <["out.tif" := RasterFile out]> fs1)
    /\ Band1 out = [7; 200]
    /\ RasterYSize out = 1%nat
    /\ RasterXSize out = 2%nat
    /\ DataType out = GDT_Byte.
Proof.
  apply (round_trip RaiseOverflow no_copy no_angle "template.tif" "in.bin" "mask.tif"
           "out.tif" (example_fs (byte_raster [7; 200] (Some plus_100)) [1; 1] [])
           (byte_raster [7; 200] (Some plus_100)) (byte_raster [1; 1] None)
           np_int8 plus_100 100);
    try reflexivity; try (simpl; lia); try discriminate.
  - repeat constructor; simpl; lia.
  - repeat constructor.
Defined.

(** C3: for a requested pixel type other than 32-bit float, 8-bit byte and
    32-bit complex float, [gdal_to_binary] raises [NotImplementedError] and
    leaves every file, the target included, as it was. *)
Theorem gdal_to_binary_unsupported copy angle inpath outpath dtype
    (fs : filesystem) :
  dtype <> GDT_Float32 -> dtype <> GDT_Byte -> dtype <> GDT_CFloat32 ->
  gdal_to_binary copy angle inpath outpath dtype fs
  = (Raise NotImplementedError, fs).
Proof. intros H1 H2 H3. by destruct dtype. Qed.

Lemma gdal_to_binary_unsupported_witness :
  gdal_to_binary no_copy no_angle "template.tif" "out.bin" GDT_Int16
    (example_fs (float_raster None) [1; 1] [])
  = (Raise NotImplementedError, example_fs (float_raster None) [1; 1] []).
Proof.
  apply (gdal_to_binary_unsupported no_copy no_angle "template.tif" "out.bin"
           GDT_Int16); discriminate.
Defined.

(** C9, as stated, fails for a 32-bit float template without a nodata
    value: the call raises, but it is not true that nothing can be assigned
    and no raster is produced.  NaN is stored at the masked pixel and the
    output raster is created and its band written before [SetNoDataValue]
    raises. *)
Lemma no_nodata_float_writes_raster :
  binary_to_gdal RaiseOverflow no_copy "in.bin" "template.tif" "mask.tif" "out.tif"
    (example_fs (float_raster None) [0; 1] float_bytes)
  = (Raise TypeError,
     <["out.tif" := RasterFile (output_raster (float_raster None) None
                                  [float32_nan; 0x40000000])]>
       (example_fs (float_raster None) [0; 1] float_bytes))
  /\ example_fs (float_raster None) [0; 1] float_bytes !! "out.tif" = None
  /\ ~ (exists e,
          binary_to_gdal RaiseOverflow no_copy "in.bin" "template.tif" "mask.tif" "out.tif"
            (example_fs (float_raster None) [0; 1] float_bytes)
          = (Raise e, example_fs (float_raster None) [0; 1] float_bytes)).
Proof.
  assert (binary_to_gdal RaiseOverflow no_copy "in.bin" "template.tif" "mask.tif" "out.tif"
            (example_fs (float_raster None) [0; 1] float_bytes)
          = (Raise TypeError,
             <["out.tif" := RasterFile (output_raster (float_raster None) None
                                          [float32_nan; 0x40000000])]>
               (example_fs (float_raster None) [0; 1] float_bytes))) as H.
  { rewrite (binary_to_gdal_result RaiseOverflow no_copy _ _ _ _ _ (float_raster None)
               (byte_raster [0; 1] None) float_bytes np_float32);
      (reflexivity || (simpl; lia)). }
  split; [exact H|]. split; [reflexivity|].
  intros [e He]. rewrite H in He.
  apply (f_equal (fun p : outcome unit * filesystem => p.2 !! "out.tif")) in He.
  cbn [snd] in He. rewrite lookup_insert_eq in He. discriminate He.
Qed.

(** C9, amended: with a template of pixel type 32-bit float or 8-bit byte
    that has no nodata value, and a mask with a zero element,
    [binary_to_gdal] raises [TypeError].  For a byte template the absent
    value cannot be assigned into the array and no file is touched.  For a
    float template the pixels where the mask is zero take NaN, the output
    raster is created and its band written, and the error comes from
    setting the absent value on the output band, which is left without a
    nodata value. *)
Theorem binary_to_gdal_no_nodata ov copy inpath templatepath maskpath outpath
    (fs : filesystem) ds mask_ds bytes py_dtype i m :
  fs !! templatepath = Some (RasterFile ds) ->
  template_dtype (DataType ds) = Some py_dtype ->
  NoDataValue ds = None ->
  fs !! maskpath = Some (RasterFile mask_ds) ->
  fs !! inpath = Some (FlatFile bytes) ->
  let n := (RasterYSize ds * RasterXSize ds)%nat in
  let mask := ReadAsArray copy mask_ds None in
  Nat.div (length bytes) (itemsize py_dtype) = n ->
  RasterYSize mask_ds = RasterYSize ds ->
  RasterXSize mask_ds = RasterXSize ds ->
  (0 < n)%nat ->
  data mask !! i = Some m -> is_zero (dtype mask) m = true -> (i < n)%nat ->
  (DataType ds = GDT_Byte ->
   binary_to_gdal ov copy inpath templatepath maskpath outpath fs
   = (Raise TypeError, fs))
  /\ (DataType ds = GDT_Float32 ->
      exists out,
        binary_to_gdal ov copy inpath templatepath maskpath outpath fs
        = (Raise TypeError, <[outpath := RasterFile out]> fs)
        /\ NoDataValue out = None
        /\ Band1 out !! i = Some float32_nan).
Proof.
  intros Ht Hd Hnd Hm Hi n mask Hn Hy Hx Hpos Hmi Hz Hlt.
  rewrite (binary_to_gdal_result ov copy _ _ _ _ _ _ _ _ _ Ht Hd Hm Hi Hn Hy Hx Hpos).
  destruct (lookup_lt_is_Some_2 (decode_items (itemsize py_dtype) n bytes) i)
    as [x Hxi]; [by rewrite length_decode_items|].
  rewrite Hnd. split; intros Hty; rewrite Hty in Hd; simplify_eq/=; [done|].
  eexists. split; [reflexivity|]. split; [reflexivity|].
  cbn [Band1 output_raster].
  by rewrite (masked_lookup _ _ _ _ _ _ _ Hmi Hxi), Hz.
Qed.

Lemma binary_to_gdal_no_nodata_witness :
  (GDT_Float32 = GDT_Byte ->
   binary_to_gdal RaiseOverflow no_copy "in.bin" "template.tif" "mask.tif" "out.tif"
     (example_fs (float_raster None) [0; 1] float_bytes)
   = (Raise TypeError, example_fs (float_raster None) [0; 1] float_bytes))
  /\ (GDT_Float32 = GDT_Float32 ->
      exists out,
        binary_to_gdal RaiseOverflow no_copy "in.bin" "template.tif" "mask.tif" "out.tif"
          (example_fs (float_raster None) [0; 1] float_bytes)
        = (Raise TypeError,
           <["out.tif" := RasterFile out]>
             (example_fs (float_raster None) [0; 1] float_bytes))
        /\ NoDataValue out = None
        /\ Band1 out !! 0%nat = Some float32_nan).
Proof.
  apply (binary_to_gdal_no_nodata RaiseOverflow no_copy "in.bin" "template.tif" "mask.tif"
           "out.tif" (example_fs (float_raster None) [0; 1] float_bytes)
           (float_raster None) (byte_raster [0; 1] None) float_bytes
           np_float32 0%nat 0);
    (reflexivity || (simpl; lia)).
Defined.

(** * Further properties *)

(** ** Which files a call changes *)

Lemma only_touches_ret {A} path (a : A) : only_touches path (mret a).
Proof. by intros fs p _. Qed.

Lemma only_touches_lift {A} path (o : outcome A) : only_touches path (lift o).
Proof. by intros fs p _. Qed.

Lemma only_touches_bind {A B} path (m : io A) (k : A -> io B) :
  only_touches path m -> (forall a, only_touches path (k a)) ->
  only_touches path (m ≫= k).
Proof.
  intros Hm Hk fs p Hp. unfold mbind, io_bind.
  specialize (Hm fs p Hp). destruct (m fs) as [[a|e] fs1]; simpl in *.
  - by rewrite (Hk a fs1 p Hp).
  - done.
Qed.

Lemma only_touches_insert {A} path (a : A) (f : file) :
  only_touches path (fun fs => (Ok a, <[path := f]> fs)).
Proof. intros fs p Hp. simpl. by rewrite lookup_insert_ne. Qed.

Lemma only_touches_gdal_Open path q : only_touches path (gdal_Open q).
Proof.
  intros fs p _. unfold gdal_Open. by destruct (fs !! q) as [[?|?]|].
Qed.

Lemma only_touches_modify path f : only_touches path (modify_dataset path f).
Proof.
  intros fs p Hp. unfold modify_dataset.
  destruct (fs !! path) as [[?|?]|]; simpl; [done| |done].
  by rewrite lookup_insert_ne.
Qed.

Ltac frame :=
  repeat first
    [ apply only_touches_ret
    | apply only_touches_lift
    | apply only_touches_gdal_Open
    | apply only_touches_modify
    | apply only_touches_insert
    | apply only_touches_bind; [|intros ?]
    | progress unfold raise ].

(** ** The configuration generator: failures and effects *)

(** X1: a shape without a second component makes [write_snaphu_config] raise
    [IndexError] before anything is written. *)
Theorem write_snaphu_config_short_shape in_ifg in_cor looks_az looks_range
    shape out_conf out_file tile_shape tile_overlap in_mask unwrapped
    (fs : filesystem) :
  (length shape < 2)%nat ->
  write_snaphu_config in_ifg in_cor looks_az looks_range shape out_conf
    out_file tile_shape tile_overlap in_mask unwrapped fs
  = (Raise IndexError, fs).
Proof.
  intros H. unfold write_snaphu_config.
  by rewrite (lookup_ge_None_2 shape 1) by lia.
Qed.

Lemma write_snaphu_config_short_shape_witness :
  write_snaphu_config "ifg.bin" "cor.bin" 4 20 [100] "snaphu.conf" "unw.bin"
    None 600 None false ∅
  = (Raise IndexError, ∅).
Proof.
  apply (write_snaphu_config_short_shape "ifg.bin" "cor.bin" 4 20 [100]
           "snaphu.conf" "unw.bin" None 600 None false ∅).
  simpl. lia.
Defined.

(** X2: a tile grid shape that is neither empty nor a pair makes
    [write_snaphu_config] raise [ValueError] before anything is written. *)
Theorem write_snaphu_config_bad_tile_shape in_ifg in_cor looks_az looks_range
    shape out_conf out_file tiles tile_overlap in_mask unwrapped width
    (fs : filesystem) :
  shape !! 1%nat = Some width ->
  tiles <> [] -> length tiles <> 2%nat ->
  write_snaphu_config in_ifg in_cor looks_az looks_range shape out_conf
    out_file (Some tiles) tile_overlap in_mask unwrapped fs
  = (Raise ValueError, fs).
Proof.
  intros Hw Hne Hlen. unfold write_snaphu_config. rewrite Hw.
  by destruct tiles as [|r [|c [|? ?]]].
Qed.

Lemma write_snaphu_config_bad_tile_shape_witness :
  write_snaphu_config "ifg.bin" "cor.bin" 4 20 [100; 200] "snaphu.conf"
    "unw.bin" (Some [3; 3; 3]) 600 None false ∅
  = (Raise ValueError, ∅).
Proof.
  apply (write_snaphu_config_bad_tile_shape "ifg.bin" "cor.bin" 4 20
           [100; 200] "snaphu.conf" "unw.bin" [3; 3; 3] 600 None false 200 ∅);
    (reflexivity || discriminate).
Defined.

(** X3: no call of [write_snaphu_config] raises [KeyError]: every template
    that a call includes finds all its fields in the options, so filling
    the templates never fails on a field without a value. *)
Theorem write_snaphu_config_no_KeyError in_ifg in_cor looks_az looks_range
    shape out_conf out_file tile_shape tile_overlap in_mask unwrapped
    (fs : filesystem) (key : string) :
  (write_snaphu_config in_ifg in_cor looks_az looks_range shape out_conf
     out_file tile_shape tile_overlap in_mask unwrapped fs).1
  <> Raise (KeyError key).
Proof.
  destruct (shape !! 1%nat) as [width|] eqn:Hw.
  - destruct tile_shape as [[|r [|c [|? ?]]]|];
      try (by rewrite (write_snaphu_config_text _ _ _ _ _ _ _ _ _ _ _ width));
      unfold write_snaphu_config; by rewrite Hw.
  - unfold write_snaphu_config. by rewrite Hw.
Qed.

Lemma write_snaphu_config_touches in_ifg in_cor looks_az looks_range shape
    out_conf out_file tile_shape tile_overlap in_mask unwrapped :
  only_touches out_conf
    (write_snaphu_config in_ifg in_cor looks_az looks_range shape out_conf
       out_file tile_shape tile_overlap in_mask unwrapped).
Proof.
  unfold write_snaphu_config, write_text. frame.
  - destruct (tuple_truthy tile_shape); [|frame].
    destruct tile_shape as [[|r [|c [|? ?]]]|]; frame.
  - destruct a0. frame.
    + destruct (str_truthy in_mask); frame.
    + destruct a0. frame.
Qed.

(** X4: whatever its outcome, [write_snaphu_config] changes no file other
    than the one at [out_conf]. *)
Theorem write_snaphu_config_frame in_ifg in_cor looks_az looks_range shape
    out_conf out_file tile_shape tile_overlap in_mask unwrapped
    (fs : filesystem) (p : string) :
  p <> out_conf ->
  (write_snaphu_config in_ifg in_cor looks_az looks_range shape out_conf
     out_file tile_shape tile_overlap in_mask unwrapped fs).2 !! p
  = fs !! p.
Proof. apply write_snaphu_config_touches. Qed.

Lemma write_snaphu_config_frame_witness :
  (write_snaphu_config "ifg.bin" "cor.bin" 4 20 [100; 200] "snaphu.conf"
     "unw.bin" None 600 None false
     (example_fs (float_raster None) [0; 1] float_bytes)).2 !! "in.bin"
  = Some (FlatFile float_bytes).
Proof.
  rewrite (write_snaphu_config_frame "ifg.bin" "cor.bin" 4 20 [100; 200]
             "snaphu.conf" "unw.bin" None 600 None false
             (example_fs (float_raster None) [0; 1] float_bytes) "in.bin");
    [reflexivity | discriminate].
Defined.





(** X7: each template can be filled exactly when the dictionary binds the
    fields it names: eight for the base template, four for the tiling
    template, one for the masking template; the pre-unwrapped template has
    no field. *)
Theorem templates_need_their_fields (kwargs : gmap string pyval) :
  ((exists r, format base_template kwargs = Ok r)
   <-> Forall (fun k => is_Some (kwargs !! k))
         ["infile"; "informat"; "width"; "looks_range"; "looks_az";
          "outfile"; "outformat"; "corfile"])
  /\ ((exists r, format tile_template kwargs = Ok r)
      <-> Forall (fun k => is_Some (kwargs !! k))
            ["ntilerow"; "ntilecol"; "overlap"; "nproc"])
  /\ ((exists r, format mask_template kwargs = Ok r)
      <-> is_Some (kwargs !! "mask"))
  /\ (exists r, format unwrap_template kwargs = Ok r).
Proof.
  repeat split.
  - intros [r H]. unfold format in H. cbn -[lookup] in H.
    repeat match type of H with
      | context [kwargs !! ?k] =>
          let E := fresh "E" in
          destruct (kwargs !! k) eqn:E; cbn -[lookup] in H; [|discriminate H]
      end.
    repeat constructor; eauto.
  - intros H.
    rewrite !Forall_cons in H. repeat destruct H as [[? ?] H].
    eexists. eapply format_base; eassumption.
  - intros [r H]. unfold format in H. cbn -[lookup] in H.
    repeat match type of H with
      | context [kwargs !! ?k] =>
          let E := fresh "E" in
          destruct (kwargs !! k) eqn:E; cbn -[lookup] in H; [|discriminate H]
      end.
    repeat constructor; eauto.
  - intros H.
    rewrite !Forall_cons in H. repeat destruct H as [[? ?] H].
    eexists. eapply format_tile; eassumption.
  - intros [r H]. unfold format in H. cbn -[lookup] in H.
    by destruct (kwargs !! "mask").
  - intros [v H]. eexists. eapply format_mask; eassumption.
  - eexists. apply format_unwrap.
Qed.

(** ** Bytes and items *)

Lemma le_bytes_range k p : Forall (fun b => 0 <= b < 256) (le_bytes k p).
Proof.
  revert p. induction k as [|k IH]; intros p; simpl; constructor; [|done].
  apply Z.mod_pos_bound. lia.
Qed.

Lemma encode_items_range k l : Forall (fun b => 0 <= b < 256) (encode_items k l).
Proof.
  unfold encode_items. induction l as [|p l IH]; csimpl; [done|].
  apply Forall_app. split; [apply le_bytes_range | done].
Qed.

Lemma le_value_range bs :
  Forall (fun b => 0 <= b < 256) bs ->
  0 <= le_value bs < 256 ^ Z.of_nat (length bs).
Proof.
  induction 1 as [|b bs Hb _ IH]; simpl length; simpl le_value.
  - change (256 ^ Z.of_nat 0) with 1. lia.
  - rewrite Nat2Z.inj_succ, Z.pow_succ_r by lia. lia.
Qed.

Lemma le_bytes_le_value bs :
  Forall (fun b => 0 <= b < 256) bs ->
  le_bytes (length bs) (le_value bs) = bs.
Proof.
  induction 1 as [|b bs Hb _ IH]; simpl; [done|].
  rewrite (Z.mul_comm 256), Z.mod_add, Z.div_add by lia.
  rewrite Z.mod_small, Z.div_small, Z.add_0_l by lia. by rewrite IH.
Qed.

Lemma encode_decode_items k n bs :
  length bs = (n * k)%nat ->
  Forall (fun b => 0 <= b < 256) bs ->
  encode_items k (decode_items k n bs) = bs.
Proof.
  revert bs. induction n as [|n IH]; intros bs Hlen Hbs.
  - by destruct bs.
  - simpl in Hlen. unfold encode_items. csimpl.
    fold (encode_items k (decode_items k n (drop k bs))).
    rewrite IH.
    + assert (length (take k bs) = k) as Hk by (rewrite length_take; lia).
      pose proof (le_bytes_le_value (take k bs) (Forall_take _ _ _ Hbs)) as H.
      rewrite Hk in H. rewrite H. apply take_drop.
    + rewrite length_drop. lia.
    + by apply Forall_drop.
Qed.

Lemma decode_items_range k n bs :
  length bs = (n * k)%nat ->
  Forall (fun b => 0 <= b < 256) bs ->
  Forall (fun p => 0 <= p < 256 ^ Z.of_nat k) (decode_items k n bs).
Proof.
  revert bs. induction n as [|n IH]; intros bs Hlen Hbs; simpl; [done|].
  simpl in Hlen. constructor.
  - assert (length (take k bs) = k) as Hk by (rewrite length_take; lia).
    pose proof (le_value_range (take k bs) (Forall_take _ _ _ Hbs)) as H.
    by rewrite Hk in H.
  - apply IH; [rewrite length_drop; lia | by apply Forall_drop].
Qed.

Lemma decode_items_app k n bs extra :
  length bs = (n * k)%nat ->
  decode_items k n (bs ++ extra) = decode_items k n bs.
Proof.
  revert bs. induction n as [|n IH]; intros bs Hlen; simpl; [done|].
  simpl in Hlen.
  rewrite take_app_le, drop_app_le by lia.
  rewrite IH; [done|]. rewrite length_drop. lia.
Qed.

(** ** [gdal_to_binary]: failures and effects *)

Lemma gdal_to_binary_not_raster copy angle inpath outpath dtype py_dtype
    (fs : filesystem) :
  requested_dtype dtype = Some py_dtype ->
  ~ is_raster fs inpath ->
  gdal_to_binary copy angle inpath outpath dtype fs
  = (Raise AttributeError, fs).
Proof.
  intros Hd Hr. unfold gdal_to_binary, gdal_Open.
  destruct (fs !! inpath) as [[bs|r]|] eqn:Hi.
  - destruct dtype; simplify_eq/=; io_step; by rewrite Hi.
  - destruct Hr. by exists r.
  - destruct dtype; simplify_eq/=; io_step; by rewrite Hi.
Qed.

(** X8: when the input path holds no raster, [gdal_to_binary] with an
    accepted pixel type raises [AttributeError] and writes nothing: the
    [None] that [gdal.Open] gives is used unchecked. *)
Theorem gdal_to_binary_no_raster copy angle inpath outpath dtype py_dtype
    (fs : filesystem) :
  requested_dtype dtype = Some py_dtype ->
  ~ is_raster fs inpath ->
  gdal_to_binary copy angle inpath outpath dtype fs
  = (Raise AttributeError, fs).
Proof. apply gdal_to_binary_not_raster. Qed.

Lemma gdal_to_binary_no_raster_witness :
  gdal_to_binary no_copy no_angle "in.bin" "out.bin" GDT_Float32
    (example_fs (float_raster None) [0; 1] float_bytes)
  = (Raise AttributeError, example_fs (float_raster None) [0; 1] float_bytes).
Proof.
  apply (gdal_to_binary_no_raster no_copy no_angle "in.bin" "out.bin"
           GDT_Float32 np_float32); [reflexivity|].
  intros [r Hr]. discriminate Hr.
Defined.

Lemma gdal_to_binary_raster copy angle inpath outpath dtype py_dtype
    (fs : filesystem) ds :
  fs !! inpath = Some (RasterFile ds) ->
  requested_dtype dtype = Some py_dtype ->
  exists bytes,
    gdal_to_binary copy angle inpath outpath dtype fs
    = (Ok tt, <[outpath := FlatFile bytes]> fs)
    /\ length bytes = (length (Band1 ds) * itemsize py_dtype)%nat
    /\ Forall (fun b => 0 <= b < 256) bytes.
Proof.
  intros Hi Hd. unfold gdal_to_binary, gdal_Open, tofile, ReadAsArray.
  destruct dtype; simplify_eq/=; io_step; rewrite Hi; simpl;
    eexists; (split; [reflexivity|]);
    (split; [|apply encode_items_range]);
    rewrite length_encode_items; repeat case_decide;
    by rewrite ?length_fmap.
Qed.

(** X9: for a raster at the input path and an accepted pixel type,
    [gdal_to_binary] returns and writes one flat file of bytes, as many per
    pixel as the written type takes: 4 for 32-bit float and for 32-bit
    complex float (the phase is stored, not the complex number), 1 for
    8-bit byte. *)
Theorem gdal_to_binary_size copy angle inpath outpath dtype py_dtype
    (fs : filesystem) ds :
  fs !! inpath = Some (RasterFile ds) ->
  requested_dtype dtype = Some py_dtype ->
  exists bytes,
    gdal_to_binary copy angle inpath outpath dtype fs
    = (Ok tt, <[outpath := FlatFile bytes]> fs)
    /\ length bytes = (length (Band1 ds) * itemsize py_dtype)%nat
    /\ Forall (fun b => 0 <= b < 256) bytes.
Proof. apply gdal_to_binary_raster. Qed.

Lemma gdal_to_binary_size_witness :
  exists bytes,
    gdal_to_binary no_copy no_angle "template.tif" "out.bin" GDT_CFloat32
      (example_fs (float_raster None) [0; 1] [])
    = (Ok tt,
       <["out.bin" := FlatFile bytes]> (example_fs (float_raster None) [0; 1] []))
    /\ length bytes = (2 * 4)%nat
    /\ Forall (fun b => 0 <= b < 256) bytes.
Proof.
  apply (gdal_to_binary_size no_copy no_angle "template.tif" "out.bin"
           GDT_CFloat32 np_float32
           (example_fs (float_raster None) [0; 1] []) (float_raster None));
    reflexivity.
Defined.

Lemma gdal_to_binary_touches copy angle inpath outpath dtype :
  only_touches outpath (gdal_to_binary copy angle inpath outpath dtype).
Proof.
  unfold gdal_to_binary, tofile. frame. by destruct dtype; frame.
Qed.

(** X10: whatever its outcome, [gdal_to_binary] changes no file other than
    the one at the output path; the source raster is kept unless it is the
    output path itself. *)
Theorem gdal_to_binary_frame copy angle inpath outpath dtype
    (fs : filesystem) (p : string) :
  p <> outpath ->
  (gdal_to_binary copy angle inpath outpath dtype fs).2 !! p = fs !! p.
Proof. apply gdal_to_binary_touches. Qed.

Lemma gdal_to_binary_frame_witness :
  (gdal_to_binary no_copy no_angle "template.tif" "out.bin" GDT_Float32
     (example_fs (float_raster None) [0; 1] [])).2 !! "template.tif"
  = Some (RasterFile (float_raster None)).
Proof.
  rewrite (gdal_to_binary_frame no_copy no_angle "template.tif" "out.bin"
             GDT_Float32 (example_fs (float_raster None) [0; 1] [])
             "template.tif"); [reflexivity | discriminate].
Defined.

(** ** [binary_to_gdal]: failures and effects *)

(** The first steps of [binary_to_gdal], up to the array read from the
    binary file. *)
Ltac template_step Hd :=
  match goal with
  | |- context [match DataType ?ds with _ => _ end ?fs] =>
      let H := fresh in
      assert (match DataType ds with
              | GDT_Byte => fun fs0 : filesystem => (Ok np_int8, fs0)
              | GDT_Float32 => fun fs0 : filesystem => (Ok np_float32, fs0)
              | _ => @lift np_dtype (Raise NotImplementedError)
              end fs = (Ok _, fs)) as H
        by (destruct (DataType ds); simpl in Hd; by simplify_eq);
      rewrite H; clear H
  end.

(** X11: when the template path holds no raster, [binary_to_gdal] raises
    [AttributeError] and writes nothing. *)
Theorem binary_to_gdal_no_template ov copy inpath templatepath maskpath outpath
    (fs : filesystem) :
  ~ is_raster fs templatepath ->
  binary_to_gdal ov copy inpath templatepath maskpath outpath fs
  = (Raise AttributeError, fs).
Proof.
  intros Hr. unfold binary_to_gdal, gdal_Open. io_step.
  destruct (fs !! templatepath) as [[bs|r]|] eqn:Ht; [done| |done].
  destruct Hr. by exists r.
Qed.

Lemma binary_to_gdal_no_template_witness :
  binary_to_gdal RaiseOverflow no_copy "in.bin" "absent.tif" "mask.tif" "out.tif"
    (example_fs (float_raster None) [0; 1] float_bytes)
  = (Raise AttributeError, example_fs (float_raster None) [0; 1] float_bytes).
Proof.
  apply (binary_to_gdal_no_template RaiseOverflow no_copy "in.bin" "absent.tif" "mask.tif"
           "out.tif").
  intros [r Hr]. discriminate Hr.
Defined.

(** X12: a template of any pixel type other than 32-bit float and 8-bit
    byte, 32-bit complex float included although [gdal_to_binary] accepts
    it, makes [binary_to_gdal] raise [NotImplementedError]; this happens
    before the mask and the binary file are looked at, and nothing is
    written. *)
Theorem binary_to_gdal_unsupported_template ov copy inpath templatepath maskpath
    outpath (fs : filesystem) ds :
  fs !! templatepath = Some (RasterFile ds) ->
  DataType ds <> GDT_Float32 -> DataType ds <> GDT_Byte ->
  binary_to_gdal ov copy inpath templatepath maskpath outpath fs
  = (Raise NotImplementedError, fs).
Proof.
  intros Ht H1 H2. unfold binary_to_gdal, gdal_Open. io_step. rewrite Ht.
  by destruct (DataType ds).
Qed.

Lemma binary_to_gdal_unsupported_template_witness :
  binary_to_gdal RaiseOverflow no_copy "absent.bin" "template.tif" "absent.tif" "out.tif"
    (example_fs
       {| RasterYSize := 1; RasterXSize := 2; DataType := GDT_CFloat32;
          NoDataValue := None; GeoTransform := default_geotransform;
          Projection := ""; Band1 := [0; 0] |} [0; 1] [])
  = (Raise NotImplementedError,
     example_fs
       {| RasterYSize := 1; RasterXSize := 2; DataType := GDT_CFloat32;
          NoDataValue := None; GeoTransform := default_geotransform;
          Projection := ""; Band1 := [0; 0] |} [0; 1] []).
Proof.
  eapply (binary_to_gdal_unsupported_template RaiseOverflow no_copy "absent.bin"
            "template.tif" "absent.tif" "out.tif");
    [reflexivity | discriminate | discriminate].
Defined.

Lemma binary_to_gdal_absent_input ov copy inpath templatepath maskpath outpath
    (fs : filesystem) ds py_dtype :
  fs !! templatepath = Some (RasterFile ds) ->
  template_dtype (DataType ds) = Some py_dtype ->
  (~ is_raster fs maskpath ->
   binary_to_gdal ov copy inpath templatepath maskpath outpath fs
   = (Raise AttributeError, fs))
  /\ (is_raster fs maskpath -> fs !! inpath = None ->
      binary_to_gdal ov copy inpath templatepath maskpath outpath fs
      = (Raise FileNotFoundError, fs)).
Proof.
  intros Ht Hd.
  split; [intros Hr | intros [mask_ds Hm] Hi];
    unfold binary_to_gdal, gdal_Open; io_step; rewrite Ht; template_step Hd.
  - destruct (fs !! maskpath) as [[bs|r]|] eqn:Hm; [done| |done].
    destruct Hr. by exists r.
  - rewrite Hm. unfold fromfile. by rewrite Hi.
Qed.

(** X13: with an accepted template, a mask path that holds no raster makes
    [binary_to_gdal] raise [AttributeError], and a binary file that does not
    exist makes it raise [FileNotFoundError]; nothing is written. *)
Theorem binary_to_gdal_missing_input ov copy inpath templatepath maskpath outpath
    (fs : filesystem) ds py_dtype :
  fs !! templatepath = Some (RasterFile ds) ->
  template_dtype (DataType ds) = Some py_dtype ->
  (~ is_raster fs maskpath ->
   binary_to_gdal ov copy inpath templatepath maskpath outpath fs
   = (Raise AttributeError, fs))
  /\ (is_raster fs maskpath -> fs !! inpath = None ->
      binary_to_gdal ov copy inpath templatepath maskpath outpath fs
      = (Raise FileNotFoundError, fs)).
Proof. apply binary_to_gdal_absent_input. Qed.

Lemma binary_to_gdal_missing_input_witness :
  binary_to_gdal RaiseOverflow no_copy "absent.bin" "template.tif" "mask.tif" "out.tif"
    (example_fs (float_raster None) [0; 1] float_bytes)
  = (Raise FileNotFoundError,
     example_fs (float_raster None) [0; 1] float_bytes).
Proof.
  apply (binary_to_gdal_missing_input RaiseOverflow no_copy "absent.bin" "template.tif"
           "mask.tif" "out.tif"
           (example_fs (float_raster None) [0; 1] float_bytes)
           (float_raster None) np_float32 eq_refl eq_refl);
    [by eexists | reflexivity].
Defined.

(** X14: a binary file that does not hold exactly height x width whole
    items makes [binary_to_gdal] raise [ValueError], and nothing is
    written. *)
Theorem binary_to_gdal_wrong_size ov copy inpath templatepath maskpath outpath
    (fs : filesystem) ds mask_ds bytes py_dtype :
  fs !! templatepath = Some (RasterFile ds) ->
  template_dtype (DataType ds) = Some py_dtype ->
  fs !! maskpath = Some (RasterFile mask_ds) ->
  fs !! inpath = Some (FlatFile bytes) ->
  Nat.div (length bytes) (itemsize py_dtype)
  <> (RasterYSize ds * RasterXSize ds)%nat ->
  binary_to_gdal ov copy inpath templatepath maskpath outpath fs
  = (Raise ValueError, fs).
Proof.
  intros Ht Hd Hm Hi Hn.
  unfold binary_to_gdal, gdal_Open. io_step. rewrite Ht. template_step Hd.
  rewrite Hm. unfold fromfile. rewrite Hi.
  unfold reshape; simpl. rewrite length_decode_items.
  rewrite decide_False; [done|]. lia.
Qed.

Lemma binary_to_gdal_wrong_size_witness :
  binary_to_gdal RaiseOverflow no_copy "in.bin" "template.tif" "mask.tif" "out.tif"
    (example_fs (float_raster None) [0; 1] [0; 0; 128; 63])
  = (Raise ValueError, example_fs (float_raster None) [0; 1] [0; 0; 128; 63]).
Proof.
  apply (binary_to_gdal_wrong_size RaiseOverflow no_copy "in.bin" "template.tif" "mask.tif"
           "out.tif" (example_fs (float_raster None) [0; 1] [0; 0; 128; 63])
           (float_raster None) (byte_raster [0; 1] None) [0; 0; 128; 63]
           np_float32); (reflexivity || (simpl; lia)).
Defined.

(** X15: bytes after the last whole item of the binary file are ignored:
    a file of height x width items followed by less than one item gives
    the output that the items alone give. *)
Theorem binary_to_gdal_trailing_bytes ov copy inpath templatepath maskpath outpath
    (fs : filesystem) ds mask_ds bytes extra py_dtype nodata v :
  fs !! templatepath = Some (RasterFile ds) ->
  template_dtype (DataType ds) = Some py_dtype ->
  NoDataValue ds = Some nodata ->
  setitem_value ov py_dtype (Some nodata) = Ok v ->
  fs !! maskpath = Some (RasterFile mask_ds) ->
  fs !! inpath = Some (FlatFile (bytes ++ extra)) ->
  let n := (RasterYSize ds * RasterXSize ds)%nat in
  let mask := ReadAsArray copy mask_ds None in
  length bytes = (n * itemsize py_dtype)%nat ->
  (length extra < itemsize py_dtype)%nat ->
  RasterYSize mask_ds = RasterYSize ds ->
  RasterXSize mask_ds = RasterXSize ds ->
  (0 < n)%nat ->
  binary_to_gdal ov copy inpath templatepath maskpath outpath fs
  = (Ok tt,
     <[outpath := RasterFile
         (output_raster ds (Some nodata)
            (masked (dtype mask) v (data mask)
               (decode_items (itemsize py_dtype) n bytes)))]> fs).
Proof.
  intros Ht Hd Hnd Hv Hm Hi n mask Hlen Hextra Hy Hx Hpos.
  rewrite (binary_to_gdal_result ov copy _ _ _ _ _ _ _ _ _ Ht Hd Hm Hi); try done.
  - rewrite Hnd, Hv. by rewrite decode_items_app.
  - rewrite length_app, Hlen.
    symmetry. apply (Nat.div_unique _ _ _ (length extra)); lia.
Qed.

Lemma binary_to_gdal_trailing_bytes_witness :
  binary_to_gdal RaiseOverflow no_copy "in.bin" "template.tif" "mask.tif" "out.tif"
    (example_fs (float_raster (Some minus_9999)) [1; 1]
       (float_bytes ++ [9; 9; 9]))
  = (Ok tt,
     <["out.tif" := RasterFile
         (output_raster (float_raster (Some minus_9999)) (Some minus_9999)
            [0x3F800000; 0x40000000])]>
       (example_fs (float_raster (Some minus_9999)) [1; 1]
          (float_bytes ++ [9; 9; 9]))).
Proof.
  apply (binary_to_gdal_trailing_bytes RaiseOverflow no_copy "in.bin" "template.tif"
           "mask.tif" "out.tif"
           (example_fs (float_raster (Some minus_9999)) [1; 1]
              (float_bytes ++ [9; 9; 9]))
           (float_raster (Some minus_9999)) (byte_raster [1; 1] None)
           float_bytes [9; 9; 9] np_float32 minus_9999 0xC61C3C00);
    (reflexivity || (simpl; lia)).
Defined.

(** X16: a mask whose shape is not the template's makes [binary_to_gdal]
    raise [IndexError], and nothing is written. *)
Theorem binary_to_gdal_mask_shape ov copy inpath templatepath maskpath outpath
    (fs : filesystem) ds mask_ds bytes py_dtype v :
  fs !! templatepath = Some (RasterFile ds) ->
  template_dtype (DataType ds) = Some py_dtype ->
  setitem_value ov py_dtype (NoDataValue ds) = Ok v ->
  fs !! maskpath = Some (RasterFile mask_ds) ->
  fs !! inpath = Some (FlatFile bytes) ->
  Nat.div (length bytes) (itemsize py_dtype)
  = (RasterYSize ds * RasterXSize ds)%nat ->
  (RasterYSize mask_ds, RasterXSize mask_ds)
  <> (RasterYSize ds, RasterXSize ds) ->
  binary_to_gdal ov copy inpath templatepath maskpath outpath fs
  = (Raise IndexError, fs).
Proof.
  intros Ht Hd Hv Hm Hi Hn Hshape.
  unfold binary_to_gdal, gdal_Open. io_step. rewrite Ht. template_step Hd.
  rewrite Hm. unfold fromfile. rewrite Hi, Hn.
  unfold reshape; simpl. rewrite length_decode_items.
  rewrite decide_True by lia.
  unfold assign_where_zero; simpl. rewrite decide_False; [done|].
  intros Heq. apply Hshape. injection Heq as H1 H2. by rewrite H1, H2.
Qed.

Lemma binary_to_gdal_mask_shape_witness :
  binary_to_gdal RaiseOverflow no_copy "in.bin" "template.tif" "mask.tif" "out.tif"
    (example_fs
       {| RasterYSize := 2; RasterXSize := 1; DataType := GDT_Float32;
          NoDataValue := Some minus_9999;
          GeoTransform := default_geotransform; Projection := "";
          Band1 := [0; 0] |} [0; 1] float_bytes)
  = (Raise IndexError,
     example_fs
       {| RasterYSize := 2; RasterXSize := 1; DataType := GDT_Float32;
          NoDataValue := Some minus_9999;
          GeoTransform := default_geotransform; Projection := "";
          Band1 := [0; 0] |} [0; 1] float_bytes).
Proof.
  eapply (binary_to_gdal_mask_shape RaiseOverflow no_copy "in.bin" "template.tif"
            "mask.tif" "out.tif" _ _ (byte_raster [0; 1] None) float_bytes
            np_float32); try reflexivity.
  simpl. intros H. discriminate H.
Defined.

(** X17: on success the output raster takes its pixel type, geotransform,
    projection and nodata value from the template. *)
Theorem binary_to_gdal_metadata ov copy inpath templatepath maskpath outpath
    (fs : filesystem) ds mask_ds bytes py_dtype nodata v :
  fs !! templatepath = Some (RasterFile ds) ->
  template_dtype (DataType ds) = Some py_dtype ->
  NoDataValue ds = Some nodata ->
  setitem_value ov py_dtype (Some nodata) = Ok v ->
  fs !! maskpath = Some (RasterFile mask_ds) ->
  fs !! inpath = Some (FlatFile bytes) ->
  Nat.div (length bytes) (itemsize py_dtype)
  = (RasterYSize ds * RasterXSize ds)%nat ->
  RasterYSize mask_ds = RasterYSize ds ->
  RasterXSize mask_ds = RasterXSize ds ->
  (0 < RasterYSize ds * RasterXSize ds)%nat ->
  exists out,
    binary_to_gdal ov copy inpath templatepath maskpath outpath fs
    = (Ok tt, <[outpath := RasterFile out]> fs)
    /\ DataType out = DataType ds
    /\ GeoTransform out = GeoTransform ds
    /\ Projection out = Projection ds
    /\ NoDataValue out = Some nodata.
Proof.
  intros Ht Hd Hnd Hv Hm Hi Hn Hy Hx Hpos. eexists. split.
  - rewrite (binary_to_gdal_result ov copy _ _ _ _ _ _ _ _ _ Ht Hd Hm Hi Hn Hy Hx Hpos).
    rewrite Hnd, Hv. reflexivity.
  - done.
Qed.

Lemma binary_to_gdal_metadata_witness :
  exists out,
    binary_to_gdal RaiseOverflow no_copy "in.bin" "template.tif" "mask.tif" "out.tif"
      (example_fs (float_raster (Some minus_9999)) [0; 1] float_bytes)
    = (Ok tt,
       <["out.tif" := RasterFile out]>
         (example_fs (float_raster (Some minus_9999)) [0; 1] float_bytes))
    /\ DataType out = GDT_Float32
    /\ GeoTransform out = default_geotransform
    /\ Projection out = "EPSG:4326"
    /\ NoDataValue out = Some minus_9999.
Proof.
  apply (binary_to_gdal_metadata RaiseOverflow no_copy "in.bin" "template.tif" "mask.tif"
           "out.tif"
           (example_fs (float_raster (Some minus_9999)) [0; 1] float_bytes)
           (float_raster (Some minus_9999)) (byte_raster [0; 1] None)
           float_bytes np_float32 minus_9999 0xC61C3C00);
    (reflexivity || (simpl; lia)).
Defined.

Lemma only_touches_fromfile path q t : only_touches path (fromfile q t).
Proof.
  intros fs p _. unfold fromfile. by destruct (fs !! q) as [[?|?]|].
Qed.

Lemma only_touches_WriteArray copy path arr :
  only_touches path (WriteArray copy path arr).
Proof.
  intros fs p Hp. unfold WriteArray.
  destruct (fs !! path) as [[?|r]|]; simpl; try done.
  case_decide; simpl; [|done]. by rewrite lookup_insert_ne.
Qed.

Lemma only_touches_SetNoDataValue path v :
  only_touches path (SetNoDataValue path v).
Proof. destruct v; [apply only_touches_modify | apply only_touches_lift]. Qed.

Lemma only_touches_Create {B} path xsize ysize t (k : string -> io B) :
  only_touches path (k path) ->
  only_touches path (Create path xsize ysize t ≫= k).
Proof.
  intros Hk fs p Hp. unfold mbind, io_bind, Create.
  case_bool_decide; [done|].
  rewrite (Hk _ p Hp). by rewrite lookup_insert_ne.
Qed.

Lemma binary_to_gdal_touches ov copy inpath templatepath maskpath outpath :
  only_touches outpath
    (binary_to_gdal ov copy inpath templatepath maskpath outpath).
Proof.
  unfold binary_to_gdal, SetGeoTransform, SetProjection.
  apply only_touches_bind; [apply only_touches_gdal_Open | intros ds].
  apply only_touches_bind; [by destruct (DataType ds); frame | intros py].
  apply only_touches_bind; [apply only_touches_gdal_Open | intros mask_ds].
  apply only_touches_bind; [apply only_touches_fromfile | intros arr].
  apply only_touches_bind; [apply only_touches_lift | intros arr1].
  apply only_touches_bind; [apply only_touches_lift | intros arr2].
  apply only_touches_Create.
  apply only_touches_bind; [apply only_touches_modify | intros _].
  apply only_touches_bind; [apply only_touches_modify | intros _].
  apply only_touches_bind; [apply only_touches_WriteArray | intros _].
  apply only_touches_SetNoDataValue.
Qed.

(** X18: whatever its outcome, [binary_to_gdal] changes no file other than
    the one at the output path: the binary file, the template and the mask
    are kept unless one of them is the output path. *)
Theorem binary_to_gdal_frame ov copy inpath templatepath maskpath outpath
    (fs : filesystem) (p : string) :
  p <> outpath ->
  (binary_to_gdal ov copy inpath templatepath maskpath outpath fs).2 !! p
  = fs !! p.
Proof. apply binary_to_gdal_touches. Qed.

Lemma binary_to_gdal_frame_witness :
  (binary_to_gdal RaiseOverflow no_copy "in.bin" "template.tif" "mask.tif" "out.tif"
     (example_fs (float_raster None) [0; 1] float_bytes)).2 !! "template.tif"
  = Some (RasterFile (float_raster None)).
Proof.
  rewrite (binary_to_gdal_frame RaiseOverflow no_copy "in.bin" "template.tif" "mask.tif"
             "out.tif" (example_fs (float_raster None) [0; 1] float_bytes)
             "template.tif"); [reflexivity | discriminate].
Defined.

(** X19: the round trip in the other direction.  For a template of pixel
    type 32-bit float or 8-bit byte that defines a nodata value which an
    array of its type takes, a binary file of height x width whole items,
    converted to a raster by [binary_to_gdal] with a mask of the template's
    shape without zeros and back by [gdal_to_binary] in the template's
    pixel type, gives the bytes of the file again. *)
Theorem binary_round_trip ov copy angle inpath templatepath maskpath outpath
    binpath (fs : filesystem) ds mask_ds bytes py_dtype nodata v :
  fs !! templatepath = Some (RasterFile ds) ->
  template_dtype (DataType ds) = Some py_dtype ->
  NoDataValue ds = Some nodata ->
  setitem_value ov py_dtype (Some nodata) = Ok v ->
  fs !! maskpath = Some (RasterFile mask_ds) ->
  fs !! inpath = Some (FlatFile bytes) ->
  let n := (RasterYSize ds * RasterXSize ds)%nat in
  let mask := ReadAsArray copy mask_ds None in
  length bytes = (n * itemsize py_dtype)%nat ->
  Forall (fun b => 0 <= b < 256) bytes ->
  RasterYSize mask_ds = RasterYSize ds ->
  RasterXSize mask_ds = RasterXSize ds ->
  length (Band1 mask_ds) = n ->
  Forall (fun m => is_zero (dtype mask) m = false) (data mask) ->
  (0 < n)%nat ->
  exists fs1,
    binary_to_gdal ov copy inpath templatepath maskpath outpath fs = (Ok tt, fs1)
    /\ gdal_to_binary copy angle outpath binpath (DataType ds) fs1
       = (Ok tt, <[binpath := FlatFile bytes]> fs1).
Proof.
  intros Ht Hd Hnd Hv Hm Hi n mask Hlen Hbytes Hy Hx Hmlen Hvalid Hpos.
  assert (itemsize py_dtype <> 0%nat) as Hk.
  { destruct (DataType ds); simplify_eq/=; done. }
  eexists. split.
  - rewrite (binary_to_gdal_result ov copy _ _ _ _ _ _ _ _ _ Ht Hd Hm Hi);
      try done.
    + rewrite Hnd, Hv. reflexivity.
    + rewrite Hlen. by apply Nat.div_mul.
  - rewrite masked_all_valid;
      [|done|by rewrite ReadAsArray_length, length_decode_items].
    rewrite (gdal_to_binary_result copy angle outpath binpath _
               (output_raster ds (Some nodata)
                  (decode_items (itemsize py_dtype) n bytes)) py_dtype).
    + cbn [Band1 output_raster]. by rewrite encode_decode_items.
    + by rewrite lookup_insert_eq.
    + done.
    + cbn [Band1 output_raster]. by apply decode_items_range.
Qed.

Lemma binary_round_trip_witness :
  exists fs1,
    binary_to_gdal RaiseOverflow no_copy "in.bin" "template.tif" "mask.tif" "out.tif"
      (example_fs (float_raster (Some minus_9999)) [1; 1] float_bytes)
    = (Ok tt, fs1)
    /\ gdal_to_binary no_copy no_angle "out.tif" "again.bin" GDT_Float32 fs1
       = (Ok tt, <["again.bin" := FlatFile float_bytes]> fs1).
Proof.
  apply (binary_round_trip RaiseOverflow no_copy no_angle "in.bin" "template.tif" "mask.tif"
           "out.tif" "again.bin"
           (example_fs (float_raster (Some minus_9999)) [1; 1] float_bytes)
           (float_raster (Some minus_9999)) (byte_raster [1; 1] None)
           float_bytes np_float32 minus_9999 0xC61C3C00);
    try reflexivity; try (simpl; lia).
  - repeat constructor; lia.
  - repeat constructor.
Defined.

(** ** The driver *)

Lemma io_bind_ok {A B} (m : io A) (k : A -> io B) (fs fs1 : filesystem) a :
  m fs = (Ok a, fs1) -> (m ≫= k) fs = k a fs1.
Proof. intros H. unfold mbind, io_bind. by rewrite H. Qed.

Lemma io_bind_raise {A B} (m : io A) (k : A -> io B) (fs fs1 : filesystem) e :
  m fs = (Raise e, fs1) -> (m ≫= k) fs = (Raise e, fs1).
Proof. intros H. unfold mbind, io_bind. by rewrite H. Qed.

Lemma is_raster_dec (fs : filesystem) path :
  is_raster fs path \/ ~ is_raster fs path.
Proof.
  unfold is_raster. destruct (fs !! path) as [[bs|r]|]; [right|left|right];
    (by eexists) || (by intros [? ?]).
Qed.

(** The loop converts the rasters in order and stops at the first path that
    holds no raster. *)
Lemma main_conversions_ok copy angle (fs : filesystem) r1 r2 r3 r4 r5 :
  fs !! "bursts_unwrapped.tif" = Some (RasterFile r1) ->
  fs !! "bursts_unwrapped_corrected.tif" = Some (RasterFile r2) ->
  fs !! "bursts_wrapped.tif" = Some (RasterFile r3) ->
  fs !! "bursts_correlation.tif" = Some (RasterFile r4) ->
  fs !! "bursts_mask.tif" = Some (RasterFile r5) ->
  exists b1 b2 b3 b4 b5,
    main_conversions copy angle fs
    = (Ok tt,
       <["bursts_mask.bin" := FlatFile b5]> (
       <["bursts_correlation.bin" := FlatFile b4]> (
       <["bursts_wrapped.bin" := FlatFile b3]> (
       <["bursts_unwrapped_corrected.bin" := FlatFile b2]> (
       <["bursts_unwrapped.bin" := FlatFile b1]> fs)))))
    /\ length b1 = (length (Band1 r1) * 4)%nat
    /\ length b2 = (length (Band1 r2) * 4)%nat
    /\ length b3 = (length (Band1 r3) * 4)%nat
    /\ length b4 = (length (Band1 r4) * 4)%nat
    /\ length b5 = (length (Band1 r5) * 1)%nat.
Proof.
  intros H1 H2 H3 H4 H5.
  destruct (gdal_to_binary_raster copy angle "bursts_unwrapped.tif"
              "bursts_unwrapped.bin" GDT_Float32 np_float32 fs r1 H1 eq_refl)
    as (b1 & E1 & L1 & _).
  destruct (gdal_to_binary_raster copy angle "bursts_unwrapped_corrected.tif"
              "bursts_unwrapped_corrected.bin" GDT_Float32 np_float32
              (<["bursts_unwrapped.bin" := FlatFile b1]> fs) r2)
    as (b2 & E2 & L2 & _); [by rewrite !lookup_insert_ne|done|].
  destruct (gdal_to_binary_raster copy angle "bursts_wrapped.tif"
              "bursts_wrapped.bin" GDT_Float32 np_float32
              (<["bursts_unwrapped_corrected.bin" := FlatFile b2]> (
               <["bursts_unwrapped.bin" := FlatFile b1]> fs)) r3)
    as (b3 & E3 & L3 & _); [by rewrite !lookup_insert_ne|done|].
  destruct (gdal_to_binary_raster copy angle "bursts_correlation.tif"
              "bursts_correlation.bin" GDT_Float32 np_float32
              (<["bursts_wrapped.bin" := FlatFile b3]> (
               <["bursts_unwrapped_corrected.bin" := FlatFile b2]> (
               <["bursts_unwrapped.bin" := FlatFile b1]> fs))) r4)
    as (b4 & E4 & L4 & _); [by rewrite !lookup_insert_ne|done|].
  destruct (gdal_to_binary_raster copy angle "bursts_mask.tif"
              "bursts_mask.bin" GDT_Byte np_int8
              (<["bursts_correlation.bin" := FlatFile b4]> (
               <["bursts_wrapped.bin" := FlatFile b3]> (
               <["bursts_unwrapped_corrected.bin" := FlatFile b2]> (
               <["bursts_unwrapped.bin" := FlatFile b1]> fs)))) r5)
    as (b5 & E5 & L5 & _); [by rewrite !lookup_insert_ne|done|].
  exists b1, b2, b3, b4, b5. split; [|done].
  unfold main_conversions, for_each. cbv [String.append].
  rewrite (io_bind_ok _ _ _ _ _ E1), (io_bind_ok _ _ _ _ _ E2),
    (io_bind_ok _ _ _ _ _ E3), (io_bind_ok _ _ _ _ _ E4),
    (io_bind_ok _ _ _ _ _ E5).
  reflexivity.
Qed.

(** A loop of conversions whose outputs are not among its inputs stops
    with [AttributeError] when one of the inputs is not a raster. *)
Lemma conversions_fail copy angle (files : list (string * GDALDataType))
    (fs : filesystem) :
  Forall (fun f => is_Some (requested_dtype f.2)) files ->
  Forall (fun f => Forall (fun g => g.1 +:+ ".tif" <> f.1 +:+ ".bin") files)
    files ->
  ~ Forall (fun f => is_raster fs (f.1 +:+ ".tif")) files ->
  exists fs1,
    for_each (fun '(name, dtype) =>
                gdal_to_binary copy angle (name +:+ ".tif") (name +:+ ".bin")
                  dtype) files fs
    = (Raise AttributeError, fs1).
Proof.
  revert fs.
  assert (forall seen : list (string * GDALDataType), forall fs : filesystem,
            Forall (fun f => is_Some (requested_dtype f.2)) files ->
            Forall (fun f => Forall (fun g => g.1 +:+ ".tif" <> f.1 +:+ ".bin")
                               files) (seen ++ files) ->
            ~ Forall (fun f => is_raster fs (f.1 +:+ ".tif")) files ->
            exists fs1,
              for_each (fun '(name, dtype) =>
                          gdal_to_binary copy angle (name +:+ ".tif")
                            (name +:+ ".bin") dtype) files fs
              = (Raise AttributeError, fs1)) as Hgen.
  { induction files as [|[name dtype] files IH]; intros seen fs Hd Hio Hnot.
    - destruct Hnot. constructor.
    - apply Forall_cons in Hd as [[py Hpy] Hd]. simpl in Hpy.
      cbn [for_each].
      destruct (is_raster_dec fs (name +:+ ".tif")) as [[r Hr]|Hn].
      + destruct (gdal_to_binary_raster copy angle (name +:+ ".tif")
                    (name +:+ ".bin") dtype py fs r Hr Hpy) as (b & E & _).
        rewrite (io_bind_ok _ _ _ _ _ E).
        apply (IH (seen ++ [(name, dtype)])); [done| |].
        * rewrite <- app_assoc. simpl.
          eapply Forall_impl; [exact Hio|]. intros f Hf.
          by apply Forall_cons in Hf as [_ Hf].
        * intros Hall. apply Hnot. constructor; [by exists r|].
          apply Forall_app in Hio as [_ Hio].
          apply Forall_cons in Hio as [Hio _].
          apply Forall_cons in Hio as [_ Hio]. simpl in Hio.
          rewrite Forall_forall in Hall, Hio. apply Forall_forall.
          intros g Hg. destruct (Hall g Hg) as [rg Hrg]. exists rg.
          rewrite lookup_insert_ne in Hrg; [done|].
          intros Heq. by apply (Hio g Hg).
      + eexists.
        by rewrite (io_bind_raise _ _ _ _ _
                      (gdal_to_binary_not_raster copy angle _ _ _ _ fs Hpy Hn)). }
  intros fs Hd Hio Hnot. by apply (Hgen []).
Qed.

Lemma main_conversions_fail copy angle (fs : filesystem) :
  ~ Forall (is_raster fs) main_inputs ->
  exists fs1, main_conversions copy angle fs = (Raise AttributeError, fs1).
Proof.
  intros Hnot. apply conversions_fail.
  - repeat constructor; by eexists.
  - repeat constructor; cbv [String.append fst]; discriminate.
  - intros Hall. apply Hnot. unfold main_inputs.
    rewrite !Forall_cons in Hall. cbv [String.append fst] in Hall.
    repeat constructor; tauto.
Qed.

Lemma main_unfold ov copy angle shell :
  main ov copy angle shell
  = (main_conversions copy angle;;
     ds ← gdal_Open "bursts_wrapped.tif";
     write_snaphu_config "bursts_unwrapped.bin" "bursts_correlation.bin" 4 20
       [Z.of_nat (RasterYSize ds); Z.of_nat (RasterXSize ds)] "snaphu.conf"
       "bursts_reunwrapped.bin" None default_tile_overlap
       (Some "bursts_mask.bin") true;;
     print ("Outputting looked unwrapped phase to" +:+ " "
            +:+ "bursts_reunwrapped.bin");;
     print snaphu_command;;
     subprocess_call shell snaphu_command;;
     binary_to_gdal ov copy "bursts_reunwrapped.bin" "bursts_wrapped.tif"
       "bursts_mask.tif" "bursts_reunwrapped.tif").
Proof. reflexivity. Qed.

Lemma main_steps ov copy angle (fs : filesystem) r1 r2 r3 r4 r5 :
  fs !! "bursts_unwrapped.tif" = Some (RasterFile r1) ->
  fs !! "bursts_unwrapped_corrected.tif" = Some (RasterFile r2) ->
  fs !! "bursts_wrapped.tif" = Some (RasterFile r3) ->
  fs !! "bursts_correlation.tif" = Some (RasterFile r4) ->
  fs !! "bursts_mask.tif" = Some (RasterFile r5) ->
  exists b1 b2 b3 b4 b5 text,
    length b1 = (length (Band1 r1) * 4)%nat
    /\ length b2 = (length (Band1 r2) * 4)%nat
    /\ length b3 = (length (Band1 r3) * 4)%nat
    /\ length b4 = (length (Band1 r4) * 4)%nat
    /\ length b5 = (length (Band1 r5) * 1)%nat
    /\ directives text = main_directives (RasterXSize r3)
    /\ forall shell,
         main ov copy angle shell fs
         = binary_to_gdal ov copy "bursts_reunwrapped.bin" "bursts_wrapped.tif"
             "bursts_mask.tif" "bursts_reunwrapped.tif"
             (shell snaphu_command
                (<["snaphu.conf" := FlatFile (encode_text text)]> (
                 <["bursts_mask.bin" := FlatFile b5]> (
                 <["bursts_correlation.bin" := FlatFile b4]> (
                 <["bursts_wrapped.bin" := FlatFile b3]> (
                 <["bursts_unwrapped_corrected.bin" := FlatFile b2]> (
                 <["bursts_unwrapped.bin" := FlatFile b1]> fs))))))).2.
Proof.
  intros H1 H2 H3 H4 H5.
  destruct (main_conversions_ok copy angle fs r1 r2 r3 r4 r5 H1 H2 H3 H4 H5)
    as (b1 & b2 & b3 & b4 & b5 & E & L1 & L2 & L3 & L4 & L5).
  exists b1, b2, b3, b4, b5.
  exists (config_text "bursts_unwrapped.bin" "bursts_correlation.bin" 4 20
            (Z.of_nat (RasterXSize r3)) "bursts_reunwrapped.bin" None
            default_tile_overlap (Some "bursts_mask.bin") true).
  do 5 (split; [done|]). split; [|intros shell].
  2: { rewrite main_unfold, (io_bind_ok _ _ _ _ _ E).
       erewrite io_bind_ok;
         [|unfold gdal_Open; by rewrite !lookup_insert_ne, H3].
       erewrite io_bind_ok;
         [|by apply (write_snaphu_config_text _ _ _ _ _ _ _ _ _ _ _
                       (Z.of_nat (RasterXSize r3)))].
       unfold print. rewrite !(io_bind_ok (mret tt) _ _ _ tt eq_refl).
       unfold mbind, io_bind, subprocess_call.
       by destruct (shell snaphu_command _). }
  rewrite directives_config by reflexivity. reflexivity.
Qed.

(** X21: when the five input rasters exist, [main] is three steps in a row:
    it writes the five binary files (4 bytes per pixel, 1 for the mask) and
    a configuration whose directives are the base ones with the width of
    [bursts_wrapped.tif] as LINELENGTH, 20 and 4 looks, the mask file and
    the two pre-unwrapped directives, and no tiling; it hands that file
    system to the shell; and it runs [binary_to_gdal] on what the shell
    leaves. *)
Theorem main_pipeline ov copy angle (fs : filesystem) r1 r2 r3 r4 r5 :
  fs !! "bursts_unwrapped.tif" = Some (RasterFile r1) ->
  fs !! "bursts_unwrapped_corrected.tif" = Some (RasterFile r2) ->
  fs !! "bursts_wrapped.tif" = Some (RasterFile r3) ->
  fs !! "bursts_correlation.tif" = Some (RasterFile r4) ->
  fs !! "bursts_mask.tif" = Some (RasterFile r5) ->
  exists b1 b2 b3 b4 b5 text,
    length b1 = (length (Band1 r1) * 4)%nat
    /\ length b2 = (length (Band1 r2) * 4)%nat
    /\ length b3 = (length (Band1 r3) * 4)%nat
    /\ length b4 = (length (Band1 r4) * 4)%nat
    /\ length b5 = (length (Band1 r5) * 1)%nat
    /\ directives text = main_directives (RasterXSize r3)
    /\ forall shell,
         main ov copy angle shell fs
         = binary_to_gdal ov copy "bursts_reunwrapped.bin" "bursts_wrapped.tif"
             "bursts_mask.tif" "bursts_reunwrapped.tif"
             (shell snaphu_command
                (<["snaphu.conf" := FlatFile (encode_text text)]> (
                 <["bursts_mask.bin" := FlatFile b5]> (
                 <["bursts_correlation.bin" := FlatFile b4]> (
                 <["bursts_wrapped.bin" := FlatFile b3]> (
                 <["bursts_unwrapped_corrected.bin" := FlatFile b2]> (
                 <["bursts_unwrapped.bin" := FlatFile b1]> fs))))))).2.
Proof. apply main_steps. Qed.

Lemma main_pipeline_witness :
  exists b1 b2 b3 b4 b5 text,
    length b1 = (2 * 4)%nat
    /\ length b2 = (2 * 4)%nat
    /\ length b3 = (2 * 4)%nat
    /\ length b4 = (2 * 4)%nat
    /\ length b5 = (2 * 1)%nat
    /\ directives text = main_directives 2
    /\ forall shell,
         main RaiseOverflow no_copy no_angle shell driver_fs
         = binary_to_gdal RaiseOverflow no_copy "bursts_reunwrapped.bin"
             "bursts_wrapped.tif" "bursts_mask.tif" "bursts_reunwrapped.tif"
             (shell snaphu_command
                (<["snaphu.conf" := FlatFile (encode_text text)]> (
                 <["bursts_mask.bin" := FlatFile b5]> (
                 <["bursts_correlation.bin" := FlatFile b4]> (
                 <["bursts_wrapped.bin" := FlatFile b3]> (
                 <["bursts_unwrapped_corrected.bin" := FlatFile b2]> (
                 <["bursts_unwrapped.bin" := FlatFile b1]> driver_fs))))))).2.
Proof.
  apply (main_pipeline RaiseOverflow no_copy no_angle driver_fs (float_raster None)
           (float_raster None) (float_raster (Some minus_9999))
           (float_raster None) (byte_raster [0; 1] None)); reflexivity.
Defined.

(** X22: the exit status of the tool is not looked at.  When the five
    input rasters exist and the tool, run on the file system [main] hands
    it, leaves no output file (and a wrapped raster of an accepted type and
    a mask raster), [main] still goes on to [binary_to_gdal] and it is
    there that it fails, with [FileNotFoundError], whatever the status. *)
Theorem main_tool_without_output ov copy angle (fs : filesystem)
    r1 r2 r3 r4 r5 :
  fs !! "bursts_unwrapped.tif" = Some (RasterFile r1) ->
  fs !! "bursts_unwrapped_corrected.tif" = Some (RasterFile r2) ->
  fs !! "bursts_wrapped.tif" = Some (RasterFile r3) ->
  fs !! "bursts_correlation.tif" = Some (RasterFile r4) ->
  fs !! "bursts_mask.tif" = Some (RasterFile r5) ->
  exists b1 b2 b3 b4 b5 text,
    length b1 = (length (Band1 r1) * 4)%nat
    /\ length b2 = (length (Band1 r2) * 4)%nat
    /\ length b3 = (length (Band1 r3) * 4)%nat
    /\ length b4 = (length (Band1 r4) * 4)%nat
    /\ length b5 = (length (Band1 r5) * 1)%nat
    /\ directives text = main_directives (RasterXSize r3)
    /\ forall shell status (fs2 : filesystem) template mask py_dtype,
      shell snaphu_command
        (<["snaphu.conf" := FlatFile (encode_text text)]> (
         <["bursts_mask.bin" := FlatFile b5]> (
         <["bursts_correlation.bin" := FlatFile b4]> (
         <["bursts_wrapped.bin" := FlatFile b3]> (
         <["bursts_unwrapped_corrected.bin" := FlatFile b2]> (
         <["bursts_unwrapped.bin" := FlatFile b1]> fs))))))
      = (status, fs2) ->
      fs2 !! "bursts_reunwrapped.bin" = None ->
      fs2 !! "bursts_wrapped.tif" = Some (RasterFile template) ->
      template_dtype (DataType template) = Some py_dtype ->
      fs2 !! "bursts_mask.tif" = Some (RasterFile mask) ->
      main ov copy angle shell fs = (Raise FileNotFoundError, fs2).
Proof.
  intros H1 H2 H3 H4 H5.
  destruct (main_steps ov copy angle fs r1 r2 r3 r4 r5 H1 H2 H3 H4 H5)
    as (b1 & b2 & b3 & b4 & b5 & text & L1 & L2 & L3 & L4 & L5 & Hdir & Hmain).
  exists b1, b2, b3, b4, b5, text. do 6 (split; [done|]).
  intros shell status fs2 template mask py_dtype Hshell Hout Ht Hd Hm.
  rewrite Hmain, Hshell. cbn [snd].
  destruct (binary_to_gdal_absent_input ov copy "bursts_reunwrapped.bin"
              "bursts_wrapped.tif" "bursts_mask.tif" "bursts_reunwrapped.tif"
              fs2 template py_dtype Ht Hd) as [_ Hmiss].
  apply Hmiss; [by exists mask | done].
Qed.

Lemma main_tool_without_output_witness :
  (main RaiseOverflow no_copy no_angle absent_tool driver_fs).1
  = Raise FileNotFoundError.
Proof.
  destruct (main_tool_without_output RaiseOverflow no_copy no_angle driver_fs
              (float_raster None) (float_raster None)
              (float_raster (Some minus_9999)) (float_raster None)
              (byte_raster [0; 1] None) eq_refl eq_refl eq_refl eq_refl eq_refl)
    as (b1 & b2 & b3 & b4 & b5 & text & _ & _ & _ & _ & _ & _ & H).
  rewrite (H absent_tool 127 _ (float_raster (Some minus_9999))
             (byte_raster [0; 1] None) np_float32 eq_refl);
    reflexivity.
Defined.

Lemma main_conversions_frame copy angle (fs : filesystem) (p : string) :
  Forall (fun out => p <> out)
    ["bursts_unwrapped.bin"; "bursts_unwrapped_corrected.bin";
     "bursts_wrapped.bin"; "bursts_correlation.bin"; "bursts_mask.bin"] ->
  (main_conversions copy angle fs).2 !! p = fs !! p.
Proof.
  intros Hp. unfold main_conversions.
  cut (forall files (fs0 : filesystem),
         Forall (fun f : string * GDALDataType => p <> f.1 +:+ ".bin") files ->
         (for_each (fun '(name, dtype) =>
                      gdal_to_binary copy angle (name +:+ ".tif")
                        (name +:+ ".bin") dtype) files fs0).2 !! p
         = fs0 !! p).
  { intros Hgen. apply Hgen. rewrite !Forall_cons in Hp.
    repeat constructor; cbv [String.append fst]; tauto. }
  induction files as [|[name dtype] files IH]; intros fs0 Hall; [done|].
  apply Forall_cons in Hall as [Hne Hall]. cbn [for_each fst] in *.
  unfold mbind, io_bind.
  pose proof (gdal_to_binary_touches copy angle (name +:+ ".tif")
                (name +:+ ".bin") dtype fs0 p Hne) as Hstep.
  destruct (gdal_to_binary copy angle _ _ dtype fs0) as [[[]|e] fs1];
    simpl in *; [|done].
  by rewrite IH.
Qed.

(** X23: when one of the five input rasters is missing, [main] raises
    [AttributeError] in its conversion loop and the tool is not run: the
    result is the same whatever the tool would do, and neither the
    configuration nor the output raster is touched. *)
Theorem main_missing_input ov copy angle (fs : filesystem) :
  ~ Forall (is_raster fs) main_inputs ->
  exists fs1,
    (forall shell, main ov copy angle shell fs = (Raise AttributeError, fs1))
    /\ fs1 !! "snaphu.conf" = fs !! "snaphu.conf"
    /\ fs1 !! "bursts_reunwrapped.tif" = fs !! "bursts_reunwrapped.tif".
Proof.
  intros Hnot.
  destruct (main_conversions_fail copy angle fs Hnot) as [fs1 E].
  exists fs1. split.
  - intros shell. by rewrite main_unfold, (io_bind_raise _ _ _ _ _ E).
  - pose proof (main_conversions_frame copy angle fs) as Hframe.
    rewrite E in Hframe. cbn [snd] in Hframe.
    split; apply Hframe; repeat constructor; discriminate.
Qed.

Lemma main_missing_input_witness :
  exists fs1,
    (forall shell,
       main RaiseOverflow no_copy no_angle shell
         (example_fs (float_raster None) [0; 1] float_bytes)
       = (Raise AttributeError, fs1))
    /\ fs1 !! "snaphu.conf"
       = example_fs (float_raster None) [0; 1] float_bytes !! "snaphu.conf"
    /\ fs1 !! "bursts_reunwrapped.tif"
       = example_fs (float_raster None) [0; 1] float_bytes
           !! "bursts_reunwrapped.tif".
Proof.
  apply (main_missing_input RaiseOverflow no_copy no_angle
           (example_fs (float_raster None) [0; 1] float_bytes)).
  intros Hall. apply Forall_cons in Hall as [[r Hr] _]. discriminate Hr.
Defined.

(** X24: the whole run.  When the five input rasters exist and the tool,
    run on the file system [main] hands it, leaves a wrapped raster of
    pixel type 32-bit float or 8-bit byte with a nodata value that an array
    of its type takes, a mask raster of its shape and an output file of
    height x width items, [main] returns, whatever the status, and
    [bursts_reunwrapped.tif] is the wrapped raster's frame around the
    tool's output, with the nodata element where the mask raster is zero. *)
Theorem main_success ov copy angle (fs : filesystem) r1 r2 r3 r4 r5 :
  fs !! "bursts_unwrapped.tif" = Some (RasterFile r1) ->
  fs !! "bursts_unwrapped_corrected.tif" = Some (RasterFile r2) ->
  fs !! "bursts_wrapped.tif" = Some (RasterFile r3) ->
  fs !! "bursts_correlation.tif" = Some (RasterFile r4) ->
  fs !! "bursts_mask.tif" = Some (RasterFile r5) ->
  exists b1 b2 b3 b4 b5 text,
    length b1 = (length (Band1 r1) * 4)%nat
    /\ length b2 = (length (Band1 r2) * 4)%nat
    /\ length b3 = (length (Band1 r3) * 4)%nat
    /\ length b4 = (length (Band1 r4) * 4)%nat
    /\ length b5 = (length (Band1 r5) * 1)%nat
    /\ directives text = main_directives (RasterXSize r3)
    /\ forall shell status (fs2 : filesystem) template mask_ds bytes py_dtype
         nodata v,
      shell snaphu_command
        (<["snaphu.conf" := FlatFile (encode_text text)]> (
         <["bursts_mask.bin" := FlatFile b5]> (
         <["bursts_correlation.bin" := FlatFile b4]> (
         <["bursts_wrapped.bin" := FlatFile b3]> (
         <["bursts_unwrapped_corrected.bin" := FlatFile b2]> (
         <["bursts_unwrapped.bin" := FlatFile b1]> fs))))))
      = (status, fs2) ->
      fs2 !! "bursts_wrapped.tif" = Some (RasterFile template) ->
      template_dtype (DataType template) = Some py_dtype ->
      NoDataValue template = Some nodata ->
      setitem_value ov py_dtype (Some nodata) = Ok v ->
      fs2 !! "bursts_mask.tif" = Some (RasterFile mask_ds) ->
      RasterYSize mask_ds = RasterYSize template ->
      RasterXSize mask_ds = RasterXSize template ->
      fs2 !! "bursts_reunwrapped.bin" = Some (FlatFile bytes) ->
      let n := (RasterYSize template * RasterXSize template)%nat in
      let mask := ReadAsArray copy mask_ds None in
      (0 < n)%nat ->
      Nat.div (length bytes) (itemsize py_dtype) = n ->
      main ov copy angle shell fs
      = (Ok tt,
         <["bursts_reunwrapped.tif" := RasterFile
             (output_raster template (Some nodata)
                (masked (dtype mask) v (data mask)
                   (decode_items (itemsize py_dtype) n bytes)))]> fs2).
Proof.
  intros H1 H2 H3 H4 H5.
  destruct (main_steps ov copy angle fs r1 r2 r3 r4 r5 H1 H2 H3 H4 H5)
    as (b1 & b2 & b3 & b4 & b5 & text & L1 & L2 & L3 & L4 & L5 & Hdir & Hmain).
  exists b1, b2, b3, b4, b5, text. do 6 (split; [done|]).
  intros shell status fs2 template mask_ds bytes py_dtype nodata v
    Hshell Ht Hd Hnd Hv Hm Hy Hx Hi n mask Hpos Hn.
  rewrite Hmain, Hshell. cbn [snd].
  rewrite (binary_to_gdal_result ov copy "bursts_reunwrapped.bin"
             "bursts_wrapped.tif" "bursts_mask.tif" "bursts_reunwrapped.tif"
             fs2 template mask_ds bytes py_dtype); try done.
  by rewrite Hnd, Hv.
Qed.

Lemma main_success_witness :
  exists b1 fs2,
    length b1 = 8%nat
    /\ main RaiseOverflow no_copy no_angle copying_tool driver_fs
       = (Ok tt,
          <["bursts_reunwrapped.tif" := RasterFile
              (output_raster (float_raster (Some minus_9999))
                 (Some minus_9999)
                 (masked np_uint8 0xC61C3C00 [0; 1] (decode_items 4 2 b1)))]>
            fs2).
Proof.
  destruct (main_success RaiseOverflow no_copy no_angle driver_fs
              (float_raster None) (float_raster None)
              (float_raster (Some minus_9999)) (float_raster None)
              (byte_raster [0; 1] None) eq_refl eq_refl eq_refl eq_refl eq_refl)
    as (b1 & b2 & b3 & b4 & b5 & text & L1 & _ & _ & _ & _ & _ & H).
  exists b1. eexists. split; [exact L1|].
  apply (H copying_tool 0 _ (float_raster (Some minus_9999))
           (byte_raster [0; 1] None) b1 np_float32 minus_9999 0xC61C3C00);
    try reflexivity; try (simpl; lia).
  rewrite L1. reflexivity.
Defined.
